(** * BlockBlueLight BLE lamp: wire codec and device session coordinator

    A shallow embedding of [custom_components/blockbluelight/const.py] and
    [custom_components/blockbluelight/coordinator.py], followed by the
    properties of the protocol codec, the notification handler, the
    client-side countdown and the command sequencer.

    Python integers are unbounded, so they are modelled by [Z]; the bit
    operators [>>], [<<], [&] and [|] are [Z.shiftr], [Z.shiftl], [Z.land]
    and [Z.lor], which agree with Python on negative numbers as well.
    A [bytes] / [bytearray] value is a [list Z] whose elements lie in
    [0, 256). *)

From Stdlib Require Import ZArith List Bool Lia.
From Stdlib Require Ascii String DecimalString DecimalZ DecimalPos.
Import ListNotations.
Open Scope Z_scope.

(** ** Exceptions and results *)

Inductive exn : Type :=
| ValueError      (* bytes() of an integer outside range(256) *)
| IndexError      (* sequence index out of range *)
| AttributeError  (* attribute access on None *)
| BleakError      (* transport failure *)
| UpdateFailed.   (* raised by _send_command when the write fails *)

Inductive result (A : Type) : Type :=
| Ok (a : A)
| Raise (e : exn).
Arguments Ok {A} a.
Arguments Raise {A} e.

(** ** Python built-ins used by the sources *)

Definition in_byte_range (b : Z) : bool := (0 <=? b) && (b <? 256).

(** [bytes(iterable_of_ints)]: raises [ValueError] unless every element is in
    [range(256)]. *)
Definition bytes (l : list Z) : result (list Z) :=
  if forallb in_byte_range l then Ok l else Raise ValueError.

(** [sum(l)] *)
Definition sum (l : list Z) : Z := fold_left Z.add l 0.

(** [data[i]] on a sequence, for a non-negative literal index. *)
Definition index (data : list Z) (i : nat) : result Z :=
  match nth_error data i with
  | Some b => Ok b
  | None => Raise IndexError
  end.

(** ** const.py *)

Module Const.

Definition DEFAULT_TIMER_DURATION : Z := 15.
Definition MIN_TIMER_DURATION : Z := 1.
Definition MAX_TIMER_DURATION : Z := 60.

Definition TURN_ON_CMD : list Z := [0x3A; 0x01; 0x20; 0x00; 0x01; 0x01; 0x23; 0x0A].
Definition TURN_OFF_CMD : list Z := [0x3A; 0x01; 0x20; 0x00; 0x01; 0x00; 0x22; 0x0A].
Definition STATUS_QUERY_CMD : list Z := [0x3A; 0x01; 0x10; 0x00; 0x00; 0x11; 0x0A].

Definition RESPONSE_START_BYTE : Z := 0x2A.
Definition POWER_CMD_TYPE : Z := 0x20.
Definition STATUS_CMD_TYPE : Z := 0x10.
Definition TIMER_CMD_TYPE : Z := 0x31.

Definition create_timer_command (minutes : Z) : result (list Z) :=
  let seconds := minutes * 60 in
  let timer_high := Z.land (Z.shiftr seconds 8) 0xFF in
  let timer_low := Z.land seconds 0xFF in
  let cmd := [0x3A; 0x01; 0x31; 0x00; 0x02; timer_high; timer_low] in
  let checksum := Z.land (sum (skipn 1 cmd)) 0xFF in
  let cmd := cmd ++ [checksum] in
  let cmd := cmd ++ [0x0A] in
  bytes cmd.

End Const.
Import Const.

(** The 16-bit big-endian reading used by the notification handler:
    [(timer_high << 8) | timer_low]. *)
Definition be16 (high low : Z) : Z := Z.lor (Z.shiftl high 8) low.

(** ** coordinator.py

    The coordinator object is a record passed explicitly; a coroutine or
    method is a function in the monad [M] below, which threads the record and
    propagates Python exceptions.  The BLE transport (bleak) is outside the
    repository: its answers are read from a [Link] oracle.  Three ghost fields
    record what the code does to the outside world: [trace] (the ordered
    list of effects), [write_calls] (how many times [write_gatt_char] was
    called) and the handles' [cancelled] flag.

    Each coroutine is run to completion without other callbacks interleaved
    at its [await] points; notifications, timer callbacks and transport
    disconnects are separate operations (see [operation]). *)

Module Coordinator.

Definition DISCONNECT_DELAY : Z := 120.  (* seconds *)
Definition COUNTDOWN_INTERVAL : Z := 1.  (* seconds *)

(** What a handle returned by [loop.call_later] runs when it fires. *)
Inductive callback : Type :=
| CreateDisconnectTask    (* lambda: asyncio.create_task(self.async_disconnect()) *)
| CallUpdateCountdown.    (* lambda: self._update_countdown() *)

Record TimerHandle : Type := mkTimerHandle {
  delay : Z;              (* seconds *)
  action : callback;
  cancelled : bool
}.

(** [handle.cancel()] *)
Definition cancel (h : TimerHandle) : TimerHandle :=
  mkTimerHandle (delay h) (action h) true.

Record Client : Type := mkClient { is_connected : bool }.

(** The dict handed to [async_set_updated_data]; the power acknowledgement
    and the optimistic updates carry no ["timer_remaining"] key. *)
Record UpdatedData : Type := mkUpdatedData {
  data_is_on : bool;
  data_timer_remaining : option Z
}.

Inductive task : Type :=
| QueryAndDisconnect.     (* the closure query_and_disconnect() *)

Inductive effect : Type :=
| Established                       (* establish_connection returned a client *)
| NotifyStarted                     (* client.start_notify(NOTIFY_CHAR_UUID, ...) *)
| Wrote (frame : list Z)            (* client.write_gatt_char(WRITE_CHAR_UUID, frame) *)
| Slept (ms : Z)                    (* asyncio.sleep, in milliseconds *)
| Updated (d : UpdatedData)         (* self.async_set_updated_data(d) *)
| ClientDisconnected                (* client.disconnect() *)
| DisconnectLogged (expected : bool)
                                    (* _disconnected: debug "Expected ..." or
                                       warning "Unexpected ..." *)
| TaskCreated (t : task).           (* asyncio.create_task *)

Record Coordinator : Type := mkCoordinator {
  _client : option Client;
  _disconnect_timer : option TimerHandle;
  _is_on : bool;
  _expected_disconnect : bool;
  _auto_off_timer : option TimerHandle;
  _timer_duration : Z;                  (* minutes *)
  _timer_remaining : Z;                 (* seconds *)
  _countdown_timer : option TimerHandle;
  _countdown_start_time : option Z;
  trace : list effect;
  write_calls : nat
}.

(** [BlockBlueLightCoordinator.__init__] *)
Definition init : Coordinator :=
  mkCoordinator None None false false None DEFAULT_TIMER_DURATION 0 None None [] 0.

Definition set_client (v : option Client) (s : Coordinator) : Coordinator :=
  mkCoordinator v (_disconnect_timer s) (_is_on s) (_expected_disconnect s)
    (_auto_off_timer s) (_timer_duration s) (_timer_remaining s)
    (_countdown_timer s) (_countdown_start_time s) (trace s) (write_calls s).

Definition set_disconnect_timer (v : option TimerHandle) (s : Coordinator) : Coordinator :=
  mkCoordinator (_client s) v (_is_on s) (_expected_disconnect s)
    (_auto_off_timer s) (_timer_duration s) (_timer_remaining s)
    (_countdown_timer s) (_countdown_start_time s) (trace s) (write_calls s).

Definition set_is_on (v : bool) (s : Coordinator) : Coordinator :=
  mkCoordinator (_client s) (_disconnect_timer s) v (_expected_disconnect s)
    (_auto_off_timer s) (_timer_duration s) (_timer_remaining s)
    (_countdown_timer s) (_countdown_start_time s) (trace s) (write_calls s).

Definition set_expected_disconnect (v : bool) (s : Coordinator) : Coordinator :=
  mkCoordinator (_client s) (_disconnect_timer s) (_is_on s) v
    (_auto_off_timer s) (_timer_duration s) (_timer_remaining s)
    (_countdown_timer s) (_countdown_start_time s) (trace s) (write_calls s).

Definition set_auto_off_timer (v : option TimerHandle) (s : Coordinator) : Coordinator :=
  mkCoordinator (_client s) (_disconnect_timer s) (_is_on s) (_expected_disconnect s)
    v (_timer_duration s) (_timer_remaining s)
    (_countdown_timer s) (_countdown_start_time s) (trace s) (write_calls s).

Definition set_timer_duration_field (v : Z) (s : Coordinator) : Coordinator :=
  mkCoordinator (_client s) (_disconnect_timer s) (_is_on s) (_expected_disconnect s)
    (_auto_off_timer s) v (_timer_remaining s)
    (_countdown_timer s) (_countdown_start_time s) (trace s) (write_calls s).

Definition set_timer_remaining (v : Z) (s : Coordinator) : Coordinator :=
  mkCoordinator (_client s) (_disconnect_timer s) (_is_on s) (_expected_disconnect s)
    (_auto_off_timer s) (_timer_duration s) v
    (_countdown_timer s) (_countdown_start_time s) (trace s) (write_calls s).

Definition set_countdown_timer (v : option TimerHandle) (s : Coordinator) : Coordinator :=
  mkCoordinator (_client s) (_disconnect_timer s) (_is_on s) (_expected_disconnect s)
    (_auto_off_timer s) (_timer_duration s) (_timer_remaining s)
    v (_countdown_start_time s) (trace s) (write_calls s).

Definition set_countdown_start_time (v : option Z) (s : Coordinator) : Coordinator :=
  mkCoordinator (_client s) (_disconnect_timer s) (_is_on s) (_expected_disconnect s)
    (_auto_off_timer s) (_timer_duration s) (_timer_remaining s)
    (_countdown_timer s) v (trace s) (write_calls s).

Definition set_trace (v : list effect) (s : Coordinator) : Coordinator :=
  mkCoordinator (_client s) (_disconnect_timer s) (_is_on s) (_expected_disconnect s)
    (_auto_off_timer s) (_timer_duration s) (_timer_remaining s)
    (_countdown_timer s) (_countdown_start_time s) v (write_calls s).

Definition set_write_calls (v : nat) (s : Coordinator) : Coordinator :=
  mkCoordinator (_client s) (_disconnect_timer s) (_is_on s) (_expected_disconnect s)
    (_auto_off_timer s) (_timer_duration s) (_timer_remaining s)
    (_countdown_timer s) (_countdown_start_time s) (trace s) v.

(** *** The monad: state, exceptions, fuel

    [None] means that the recursion budget ran out; it is neither a value
    nor a Python exception, and no [except] clause catches it. *)

Definition M (A : Type) : Type := Coordinator -> option (result A * Coordinator).

Definition ret {A : Type} (a : A) : M A := fun s => Some (Ok a, s).

Definition raise {A : Type} (e : exn) : M A := fun s => Some (Raise e, s).

Definition out_of_fuel {A : Type} : M A := fun _ => None.

Definition bind {A B : Type} (m : M A) (k : A -> M B) : M B :=
  fun s =>
    match m s with
    | Some (Ok a, s') => k a s'
    | Some (Raise e, s') => Some (Raise e, s')
    | None => None
    end.

Definition get : M Coordinator := fun s => Some (Ok s, s).

Definition modify (f : Coordinator -> Coordinator) : M unit :=
  fun s => Some (Ok tt, f s).

Definition lift {A : Type} (r : result A) : M A := fun s => Some (r, s).

(** [try: m  except ...: h e] *)
Definition try_except {A : Type} (m : M A) (h : exn -> M A) : M A :=
  fun s =>
    match m s with
    | Some (Raise e, s') => h e s'
    | r => r
    end.

Definition when (b : bool) (m : M unit) : M unit := if b then m else ret tt.

Notation "x <- c ;; k" := (bind c (fun x => k))
  (at level 61, c at next level, right associativity).
Notation "c ;; k" := (bind c (fun _ => k))
  (at level 61, right associativity).

(** Python truthiness of an [Optional] handle. *)
Definition truthy {A : Type} (o : option A) : bool :=
  match o with Some _ => true | None => false end.

(** [self._client and self._client.is_connected] *)
Definition client_connected (s : Coordinator) : bool :=
  match _client s with
  | Some c => is_connected c
  | None => false
  end.

Definition emit (e : effect) : M unit :=
  modify (fun s => set_trace (trace s ++ [e]) s).

Definition sleep (ms : Z) : M unit := emit (Slept ms).

Definition async_set_updated_data (d : UpdatedData) : M unit := emit (Updated d).

(** [range(n)] *)
Definition range (n : nat) : list Z := map Z.of_nat (seq 0 n).

(** Answers of the transport and of the clock. *)
Record Link : Type := mkLink {
  establish_ok : bool;          (* establish_connection succeeds *)
  start_notify_ok : bool;       (* start_notify succeeds *)
  write_ok : nat -> bool;       (* the n-th call of write_gatt_char succeeds *)
  disconnect_runs_callback : bool;
                                (* client.disconnect() runs the registered
                                   disconnected callback before it returns *)
  clock : Z                     (* time.time() *)
}.


Section Methods.

Variable link : Link.

(** [_disconnected(client)]: the callback handed to [establish_connection]. *)
Definition _disconnected : M unit :=
  s <- get ;;
  (if _expected_disconnect s
   then emit (DisconnectLogged true) ;; modify (set_expected_disconnect false)
   else emit (DisconnectLogged false)) ;;
  modify (set_client None).

Definition _start_countdown : M unit :=
  s <- get ;;
  when (truthy (_countdown_timer s))
    (modify (set_countdown_timer (option_map cancel (_countdown_timer s)))) ;;
  modify (set_countdown_start_time (Some (clock link))) ;;
  modify (set_countdown_timer
            (Some (mkTimerHandle COUNTDOWN_INTERVAL CallUpdateCountdown false))).

Definition _stop_countdown : M unit :=
  s <- get ;;
  when (truthy (_countdown_timer s))
    (modify (set_countdown_timer None) ;;
     modify (set_countdown_start_time None)).

(** The body of the status branch of [_notification_handler], from
    [new_state = status_byte == 0x01] to the start/stop of the countdown. *)
Definition status_update (status_byte timer_seconds : Z) : M unit :=
  let new_state := status_byte =? 0x01 in
  s <- get ;;
  let state_changed := negb (Bool.eqb new_state (_is_on s)) in
  let timer_changed := negb (timer_seconds =? _timer_remaining s) in
  if state_changed || timer_changed then
    modify (set_is_on new_state) ;;
    modify (set_timer_remaining timer_seconds) ;;
    async_set_updated_data (mkUpdatedData new_state (Some timer_seconds)) ;;
    s <- get ;;
    if (0 <? timer_seconds) && negb (truthy (_countdown_timer s)) then
      _start_countdown
    else if (timer_seconds =? 0) && truthy (_countdown_timer s) then
      _stop_countdown
    else ret tt
  else ret tt.

(** The body of the power-acknowledgement branch. *)
Definition power_ack (status_byte : Z) : M unit :=
  let new_state := status_byte =? 0x01 in
  s <- get ;;
  if negb (Bool.eqb new_state (_is_on s)) then
    modify (set_is_on new_state) ;;
    async_set_updated_data (mkUpdatedData new_state None)
  else ret tt.

(** [_notification_handler(sender, data)] *)
Definition _notification_handler (data : list Z) : M unit :=
  if (length data <? 3)%nat then ret tt else
  d0 <- lift (index data 0) ;;
  if negb (d0 =? RESPONSE_START_BYTE) then ret tt else
  cmd_type <- lift (index data 2) ;;
  if cmd_type =? STATUS_CMD_TYPE then
    if (9 <? length data)%nat then
      status_byte <- lift (index data 5) ;;
      timer_high <- lift (index data 8) ;;
      timer_low <- lift (index data 9) ;;
      status_update status_byte (be16 timer_high timer_low)
    else ret tt
  else if cmd_type =? POWER_CMD_TYPE then
    if (5 <? length data)%nat then
      status_byte <- lift (index data 5) ;;
      power_ack status_byte
    else ret tt
  else if cmd_type =? TIMER_CMD_TYPE then
    ret tt
  else ret tt.

(** [establish_connection(...)] followed by the assignment to
    [self._client]. *)
Definition establish_connection : M unit :=
  if establish_ok link
  then modify (set_client (Some (mkClient true))) ;; emit Established
  else raise BleakError.

Definition start_notify : M unit :=
  if start_notify_ok link then emit NotifyStarted else raise BleakError.

(** [self._client.write_gatt_char(WRITE_CHAR_UUID, command, response=False)] *)
Definition write_gatt_char (command : list Z) : M unit :=
  s <- get ;;
  match _client s with
  | None => raise AttributeError
  | Some c =>
      modify (set_write_calls (S (write_calls s))) ;;
      if is_connected c && write_ok link (write_calls s)
      then emit (Wrote command)
      else raise BleakError
  end.

(** The retry loop of [async_connect]: [for attempt in range(5)] with
    [break] on success. *)
Fixpoint status_retry (send : list Z -> M unit) (attempts : list Z) : M unit :=
  match attempts with
  | [] => ret tt
  | attempt :: rest =>
      done <- try_except
                (send STATUS_QUERY_CMD ;; ret true)
                (fun _ =>
                   (if attempt <? 2 then sleep 1000 else ret tt) ;; ret false) ;;
      if done : bool then ret tt else status_retry send rest
  end.

(** [async_connect], with [_send_command] (reached through [_query_status])
    as a parameter: the two methods call each other. *)
Definition async_connect_with (send : list Z -> M unit) : M unit :=
  s <- get ;;
  if client_connected s then ret tt else
  establish_connection ;;
  start_notify ;;
  sleep 1000 ;;
  status_retry send (range 5).

(** [_send_command(command)] *)
Fixpoint _send_command (fuel : nat) (command : list Z) {struct fuel} : M unit :=
  match fuel with
  | O => out_of_fuel
  | S fuel' =>
      s <- get ;;
      when (negb (client_connected s))
        (async_connect_with (_send_command fuel')) ;;
      s <- get ;;
      when (truthy (_disconnect_timer s))
        (modify (set_disconnect_timer (option_map cancel (_disconnect_timer s)))) ;;
      try_except
        (write_gatt_char command ;; sleep 500)
        (fun e => match e with
                  | BleakError => raise UpdateFailed
                  | _ => raise e
                  end) ;;
      s <- get ;;
      if negb (truthy (_countdown_timer s))
      then modify (set_disconnect_timer
                     (Some (mkTimerHandle DISCONNECT_DELAY CreateDisconnectTask false)))
      else ret tt
  end.

Definition async_connect (fuel : nat) : M unit :=
  async_connect_with (_send_command fuel).

Definition _query_status (fuel : nat) : M unit :=
  _send_command fuel STATUS_QUERY_CMD.

(** [self._client.disconnect()] *)
Definition client_disconnect : M unit :=
  modify (set_client (Some (mkClient false))) ;;
  emit ClientDisconnected ;;
  when (disconnect_runs_callback link) _disconnected.

Definition async_disconnect : M unit :=
  s <- get ;;
  if truthy (_countdown_timer s) then ret tt else
  modify (set_expected_disconnect true) ;;
  when (truthy (_disconnect_timer s)) (modify (set_disconnect_timer None)) ;;
  when (truthy (_auto_off_timer s))
    (modify (set_auto_off_timer (option_map cancel (_auto_off_timer s)))) ;;
  s <- get ;;
  when (client_connected s) client_disconnect.

(** The closure [query_and_disconnect] created by [_update_countdown]. *)
Definition query_and_disconnect (fuel : nat) : M unit :=
  try_except
    (_query_status fuel ;; sleep 1000 ;; async_disconnect)
    (fun _ => ret tt).

Definition _update_countdown : M unit :=
  s <- get ;;
  if 0 <? _timer_remaining s then
    modify (set_timer_remaining (_timer_remaining s - 1)) ;;
    s <- get ;;
    async_set_updated_data (mkUpdatedData (_is_on s) (Some (_timer_remaining s))) ;;
    if 0 <? _timer_remaining s then
      modify (set_countdown_timer
                (Some (mkTimerHandle COUNTDOWN_INTERVAL CallUpdateCountdown false)))
    else
      modify (set_countdown_timer None) ;;
      emit (TaskCreated QueryAndDisconnect)
  else
    modify (set_countdown_timer None).

Definition async_turn_on (fuel : nat) : M unit :=
  s <- get ;;
  (if 0 <? _timer_duration s then
     timer_cmd <- lift (create_timer_command (_timer_duration s)) ;;
     _send_command fuel timer_cmd ;;
     sleep 200 ;;
     _send_command fuel TURN_ON_CMD
   else
     _send_command fuel TURN_ON_CMD) ;;
  sleep 500 ;;
  modify (set_is_on true) ;;
  async_set_updated_data (mkUpdatedData true None) ;;
  s <- get ;;
  when (0 <? _timer_duration s) (_query_status fuel) ;;
  s <- get ;;
  when (truthy (_auto_off_timer s)) (modify (set_auto_off_timer None)).

Definition async_turn_off (fuel : nat) : M unit :=
  s <- get ;;
  when (truthy (_auto_off_timer s)) (modify (set_auto_off_timer None)) ;;
  _send_command fuel TURN_OFF_CMD ;;
  modify (set_is_on false) ;;
  async_set_updated_data (mkUpdatedData false None).

Definition _auto_turn_off (fuel : nat) : M unit :=
  modify (set_auto_off_timer None) ;;
  async_turn_off fuel.

Definition set_timer_duration (duration : Z) : M unit :=
  modify (set_timer_duration_field duration).

(** Everything that can happen to a coordinator: calls from the entity
    layer, callbacks from the transport and from the event loop. *)
Inductive operation : Type :=
| Connect
| Disconnect
| TransportDisconnected         (* the transport drops the link *)
| Notification (data : list Z)
| Tick                          (* the countdown handle fires *)
| RunTask (t : task)
| TurnOn
| TurnOff
| AutoTurnOff
| QueryStatus
| SetTimerDuration (minutes : Z).

Definition perform (fuel : nat) (op : operation) : M unit :=
  match op with
  | Connect => async_connect fuel
  | Disconnect => async_disconnect
  | TransportDisconnected => _disconnected
  | Notification data => _notification_handler data
  | Tick => _update_countdown
  | RunTask QueryAndDisconnect => query_and_disconnect fuel
  | TurnOn => async_turn_on fuel
  | TurnOff => async_turn_off fuel
  | AutoTurnOff => _auto_turn_off fuel
  | QueryStatus => _query_status fuel
  | SetTimerDuration minutes => set_timer_duration minutes
  end.

End Methods.

(** Final state of a run, whatever it returned. *)
Definition state_after {A : Type} (m : M A) (s : Coordinator) : option Coordinator :=
  match m s with
  | Some (_, s') => Some s'
  | None => None
  end.

(** The frames written to the device, in order. *)
Fixpoint frames (t : list effect) : list (list Z) :=
  match t with
  | [] => []
  | Wrote f :: t' => f :: frames t'
  | _ :: t' => frames t'
  end.

End Coordinator.
Import Coordinator.


(** ** The frame layout, as the protocol description words it

    These two definitions are the reference layout against which the
    constants and [create_timer_command] are compared; they are not part of
    the program. *)

(** Sum modulo 256 of the bytes of [f] from index 1 up to the end of an
    [n]-byte payload (the start byte, the checksum itself and the terminator
    are left out). *)
Definition frame_checksum (f : list Z) (n : nat) : Z :=
  sum (firstn (4 + n) (skipn 1 f)) mod 256.

Definition is_command_frame (opcode : Z) (payload f : list Z) : Prop :=
  f = [0x3A; 0x01; opcode; 0x00; Z.of_nat (length payload)] ++ payload
        ++ [frame_checksum f (length payload); 0x0A].

(** The sum over opcode, payload length and payload only, modulo 256. *)
Definition opcode_len_payload_sum (opcode : Z) (payload : list Z) : Z :=
  (opcode + Z.of_nat (length payload) + sum payload) mod 256.

(** The sum the encoder takes: every byte after the start byte, that is the
    fixed 0x01 and 0x00 header bytes as well ([sum(cmd[1:]) & 0xFF]). *)
Definition header_opcode_len_payload_sum (opcode : Z) (payload : list Z) : Z :=
  (0x01 + opcode + 0x00 + Z.of_nat (length payload) + sum payload) mod 256.

(** The checksum byte of an outbound frame: the last byte but one. *)
Definition checksum_byte (f : list Z) : option Z :=
  nth_error f (length f - 2).

(** Payload of a set-timer frame: bytes 5 and 6. *)
Definition timer_payload (f : list Z) : option (Z * Z) :=
  match nth_error f 5, nth_error f 6 with
  | Some h, Some l => Some (h, l)
  | _, _ => None
  end.

(** ** Vocabulary of the coordinator statements *)

(** The notifications that must be dropped: too short, wrong start byte, a
    status frame shorter than 10 bytes, a power frame shorter than 6 bytes,
    or an opcode that is none of status, power and timer. *)
Definition ignored_frame (data : list Z) : Prop :=
  (length data < 3)%nat \/
  nth_error data 0 <> Some RESPONSE_START_BYTE \/
  (nth_error data 2 = Some STATUS_CMD_TYPE /\ (length data < 10)%nat) \/
  (nth_error data 2 = Some POWER_CMD_TYPE /\ (length data < 6)%nat) \/
  (forall opcode : Z, nth_error data 2 = Some opcode ->
     opcode <> STATUS_CMD_TYPE /\ opcode <> POWER_CMD_TYPE /\
     opcode <> TIMER_CMD_TYPE).

(** A status response of more than 9 bytes, with its power-state byte and
    the two bytes of the remaining countdown. *)
Definition status_frame (data : list Z) (status_byte timer_high timer_low : Z) : Prop :=
  (9 < length data)%nat /\
  nth_error data 0 = Some RESPONSE_START_BYTE /\
  nth_error data 2 = Some STATUS_CMD_TYPE /\
  nth_error data 5 = Some status_byte /\
  nth_error data 8 = Some timer_high /\
  nth_error data 9 = Some timer_low.

(** A power acknowledgement of more than 5 bytes. *)
Definition power_frame (data : list Z) (status_byte : Z) : Prop :=
  (5 < length data)%nat /\
  nth_error data 0 = Some RESPONSE_START_BYTE /\
  nth_error data 2 = Some POWER_CMD_TYPE /\
  nth_error data 5 = Some status_byte.

(** What a [bytearray] can hold. *)
Definition byte_data (data : list Z) : Prop :=
  Forall (fun b => 0 <= b < 256) data.

Definition well_formed (op : operation) : Prop :=
  match op with
  | Notification data => byte_data data
  | _ => True
  end.

(** [m] leaves the observation [f] of the coordinator as it found it,
    whatever it returns. *)
Definition keeps {A B : Type} (f : Coordinator -> B) (m : M A) : Prop :=
  forall (s s' : Coordinator) (r : result A), m s = Some (r, s') -> f s' = f s.

(** [m] started in a state of [P] finishes (with a value or an exception)
    in a state of [P]. *)
Definition runs {A : Type} (P : Coordinator -> Prop) (m : M A) : Prop :=
  forall s : Coordinator, P s ->
    exists (r : result A) (s' : Coordinator), m s = Some (r, s') /\ P s'.

(** The event loop firing the countdown handle for as long as one is
    scheduled (at most [n] times): the successive values of the remaining
    time, and the state in which the countdown stopped. *)
Fixpoint run_countdown (n : nat) (s : Coordinator) : list Z * Coordinator :=
  match n with
  | O => ([], s)
  | S n' =>
      if truthy (_countdown_timer s) then
        match _update_countdown s with
        | Some (_, s') =>
            let (values, s'') := run_countdown n' s' in
            (_timer_remaining s' :: values, s'')
        | None => ([], s)
        end
      else ([], s)
  end.

(** The two state predicates used with [runs]. *)
Definition connected (s : Coordinator) : Prop := client_connected s = true.

Definition anywhere (s : Coordinator) : Prop := True.

(** The state after a successful [_send_command] on an open connection:
    the pending idle-disconnect handle is cancelled, the frame is written,
    the coroutine sleeps 500 ms, and the idle-disconnect is armed again
    unless a countdown is active. *)
Definition sent (command : list Z) (s : Coordinator) : Coordinator :=
  let s1 := set_disconnect_timer (option_map cancel (_disconnect_timer s)) s in
  let s2 := set_write_calls (S (write_calls s)) s1 in
  let s3 := set_trace (trace s ++ [Wrote command; Slept 500]) s2 in
  if truthy (_countdown_timer s) then s3
  else set_disconnect_timer
         (Some (mkTimerHandle DISCONNECT_DELAY CreateDisconnectTask false)) s3.

(** The part of [_send_command] that follows the lazy reconnect. *)
Definition send_tail (link : Link) (command : list Z) : M unit :=
  s <- get ;;
  when (truthy (_disconnect_timer s))
    (modify (set_disconnect_timer (option_map cancel (_disconnect_timer s)))) ;;
  try_except
    (write_gatt_char link command ;; sleep 500)
    (fun e => match e with
              | BleakError => raise UpdateFailed
              | _ => raise e
              end) ;;
  s <- get ;;
  if negb (truthy (_countdown_timer s))
  then modify (set_disconnect_timer
                 (Some (mkTimerHandle DISCONNECT_DELAY CreateDisconnectTask false)))
  else ret tt.

(** What a successful [async_connect] leaves in the trace, and the state
    it leaves before its status query. *)
Definition connect_trace : list effect :=
  [Established; NotifyStarted; Slept 1000; Wrote STATUS_QUERY_CMD; Slept 500].

Definition opened (s : Coordinator) : Coordinator :=
  set_trace (trace s ++ [Established; NotifyStarted; Slept 1000])
    (set_client (Some (mkClient true)) s).

(** The state in which the frame of a [_send_command] is written: the
    state itself on an open connection, the state after a successful
    [async_connect] otherwise. *)
Definition reconnected (s : Coordinator) : Coordinator :=
  if client_connected s then s else sent STATUS_QUERY_CMD (opened s).

(** What [async_turn_on] leaves in the trace once the connection is open,
    with a set-timer frame ([Some]) or without ([None]). *)
Definition turn_on_trace (timer_cmd : option (list Z)) : list effect :=
  match timer_cmd with
  | Some cmd =>
      [Wrote cmd; Slept 500; Slept 200; Wrote TURN_ON_CMD; Slept 500; Slept 500;
       Updated (mkUpdatedData true None); Wrote STATUS_QUERY_CMD; Slept 500]
  | None =>
      [Wrote TURN_ON_CMD; Slept 500; Slept 500; Updated (mkUpdatedData true None)]
  end.

(** The fields that drive the countdown. *)
Definition countdown_view (s : Coordinator) : Z * option TimerHandle * option Z * Z :=
  (_timer_remaining s, _countdown_timer s, _countdown_start_time s,
   _timer_duration s).

(** Everything but the transport bookkeeping ([_client],
    [_disconnect_timer], [trace], [write_calls]): what neither a send nor a
    connect touches. *)
Definition session_view (s : Coordinator) :
  bool * bool * option TimerHandle * (Z * option TimerHandle * option Z * Z) :=
  (_is_on s, _expected_disconnect s, _auto_off_timer s, countdown_view s).

(** ** sensor.py *)

Module Sensor.

Import Ascii String.

(** [str(n)] for an integer: decimal digits, with a minus sign when
    negative. *)
Definition str (n : Z) : string :=
  DecimalString.NilZero.string_of_int (Z.to_int n).

(** [format(n, "02d")]: zero-padded to a width of 2; the sign counts in the
    width, so only a single digit is padded. *)
Definition format_02d (n : Z) : string :=
  let t := str n in
  if (String.length t <? 2)%nat then ("0" ++ t)%string else t.

(** The coordinator's [timer_remaining] property. *)
Definition timer_remaining (coordinator : Coordinator) : Z :=
  _timer_remaining coordinator.

(** [BlockBlueLightTimerSensor.native_value]; [//] and [%] are Python's
    floor division and modulo, which [Z.div] and [Z.modulo] are for a
    positive divisor. *)
Definition native_value (coordinator : Coordinator) : string :=
  let seconds := timer_remaining coordinator in
  if seconds =? 0 then "0:00"%string else
  let minutes := seconds / 60 in
  let remaining_seconds := seconds mod 60 in
  (str minutes ++ ":" ++ format_02d remaining_seconds)%string.

(** The character of a decimal digit. *)
Definition decimal_digit (d : Z) : ascii := ascii_of_nat (48 + Z.to_nat d).

End Sensor.

(** ** Vocabulary of the further properties *)

(** A sequence of operations, each run to completion; an operation that
    raises ends there, and the next one starts from the state it left. *)
Fixpoint perform_all (link : Link) (fuel : nat) (ops : list operation)
  (s : Coordinator) : option Coordinator :=
  match ops with
  | [] => Some s
  | op :: rest =>
      match perform link fuel op s with
      | Some (_, s') => perform_all link fuel rest s'
      | None => None
      end
  end.

(** The remaining time fits 16 bits, and a countdown handle is scheduled
    exactly while it is positive. *)
Definition countdown_consistent (s : Coordinator) : Prop :=
  0 <= _timer_remaining s <= 65535 /\
  truthy (_countdown_timer s) = (0 <? _timer_remaining s).

(** [k - 1, k - 2, ..., 0] *)
Fixpoint count_down_from (k : nat) : list Z :=
  match k with
  | O => []
  | S k' => Z.of_nat k' :: count_down_from k'
  end.

(** The state after a [_send_command] on an open connection whose write
    fails: the pending idle-disconnect handle is cancelled and the write is
    counted; nothing is armed again. *)
Definition unsent (s : Coordinator) : Coordinator :=
  set_write_calls (S (write_calls s))
    (set_disconnect_timer (option_map cancel (_disconnect_timer s)) s).

(** [m] started in a state of [P] can only end in a state of [P],
    whatever it returns. *)
Definition preserves {A : Type} (P : Coordinator -> Prop) (m : M A) : Prop :=
  forall (s s' : Coordinator) (r : result A), P s -> m s = Some (r, s') -> P s'.

(** No auto-off handle is held. *)
Definition auto_off_unarmed (s : Coordinator) : Prop := _auto_off_timer s = None.

(** ** Tactics *)

Ltac unfold_monad :=
  unfold sleep, async_set_updated_data, emit, when, try_except, bind, ret,
    raise, get, modify, lift, out_of_fuel in *.

Ltac unfold_handler :=
  unfold _notification_handler, status_update, power_ack, _start_countdown,
    _stop_countdown, index, RESPONSE_START_BYTE, STATUS_CMD_TYPE,
    POWER_CMD_TYPE, TIMER_CMD_TYPE in *;
  unfold_monad.

(** Cases on the first ten bytes of a notification. *)
Ltac split_data data := do 10 (try destruct data as [| ? data]).

Ltac break_if :=
  match goal with
  | |- context [if ?c then _ else _] => destruct c eqn:?
  end.

Ltac eqb_to_prop :=
  repeat match goal with
         | H : (_ =? _) = true |- _ => apply Z.eqb_eq in H
         | H : (_ =? _) = false |- _ => apply Z.eqb_neq in H
         | H : (_ <? _) = true |- _ => apply Z.ltb_lt in H
         | H : (_ <? _) = false |- _ => apply Z.ltb_ge in H
         | H : Bool.eqb _ _ = true |- _ => apply Bool.eqb_prop in H
         | H : Bool.eqb _ _ = false |- _ => apply Bool.eqb_false_iff in H
         | H : negb _ = true |- _ => apply negb_true_iff in H
         | H : negb _ = false |- _ => apply negb_false_iff in H
         | H : _ || _ = false |- _ => apply orb_false_iff in H; destruct H
         | H : _ && _ = true |- _ => apply andb_true_iff in H; destruct H
         end.

Ltac unfold_disconnect :=
  unfold async_disconnect, client_disconnect, _disconnected, client_connected,
    countdown_view in *;
  unfold_monad.

Ltac break_if_in H :=
  match type of H with
  | context [if ?c then _ else _] => destruct c eqn:?
  end.

(** ** Codec lemmas *)

Lemma land_255 (a : Z) : Z.land a 0xFF = a mod 256.
Proof. change 0xFF with (Z.ones 8). now rewrite Z.land_ones by lia. Qed.

Lemma shiftr_8 (a : Z) : Z.shiftr a 8 = a / 256.
Proof. now rewrite Z.shiftr_div_pow2 by lia. Qed.

Lemma in_byte_range_mod (a : Z) : in_byte_range (a mod 256) = true.
Proof.
  unfold in_byte_range. pose proof (Z.mod_pos_bound a 256 ltac:(lia)).
  apply andb_true_iff. split; [apply Z.leb_le | apply Z.ltb_lt]; lia.
Qed.

Lemma be16_add (high low : Z) :
  0 <= low < 256 -> be16 high low = high * 256 + low.
Proof.
  intros Hl. unfold be16.
  pose proof (Z.add_lor_land (Z.shiftl high 8) low) as Hadd.
  assert (Hdisj : Z.land (Z.shiftl high 8) low = 0).
  { apply Z.bits_inj'. intros n Hn. rewrite Z.land_spec, Z.bits_0.
    destruct (Z.ltb_spec n 8) as [Hlt | Hge].
    - rewrite Z.shiftl_spec_low by lia. reflexivity.
    - rewrite <- (Z.mod_small low (2 ^ 8)) by (change (2 ^ 8) with 256; lia).
      rewrite Z.mod_pow2_bits_high by lia. apply andb_false_r. }
  rewrite Hdisj, Z.add_0_r in Hadd. rewrite Hadd.
  rewrite Z.shiftl_mul_pow2 by lia. reflexivity.
Qed.

Lemma be16_split (s : Z) :
  0 <= s < 65536 -> be16 (Z.land (Z.shiftr s 8) 0xFF) (Z.land s 0xFF) = s.
Proof.
  intros Hs. rewrite !land_255, shiftr_8.
  rewrite be16_add by (apply Z.mod_pos_bound; lia).
  rewrite (Z.mod_small (s / 256)) by
    (split; [apply Z.div_pos; lia | apply Z.div_lt_upper_bound; lia]).
  pose proof (Z.div_mod s 256 ltac:(lia)). lia.
Qed.

(** [create_timer_command] in closed form, for every integer argument. *)
Lemma create_timer_command_eq (minutes : Z) :
  let s := minutes * 60 in
  create_timer_command minutes =
  Ok [0x3A; 0x01; 0x31; 0x00; 0x02; (s / 256) mod 256; s mod 256;
      (0x01 + 0x31 + 0x00 + 0x02 + (s / 256) mod 256 + s mod 256) mod 256;
      0x0A].
Proof.
  intros s. unfold create_timer_command. fold s.
  cbn [skipn app sum fold_left]. rewrite !land_255, shiftr_8.
  unfold bytes. cbn [forallb app].
  replace (0 + 1 + 49 + 0 + 2 + (s / 256) mod 256 + s mod 256)
    with (1 + 49 + 0 + 2 + (s / 256) mod 256 + s mod 256) by lia.
  rewrite !in_byte_range_mod. reflexivity.
Qed.

Lemma timer_seconds_bounds (minutes : Z) :
  1 <= minutes <= 60 ->
  let s := minutes * 60 in
  (s / 256) mod 256 = s / 256 /\ 0 <= s / 256 < 256 /\ 0 <= s mod 256 < 256.
Proof.
  intros Hm s.
  assert (Hs : 0 <= s < 65536) by (unfold s; lia).
  assert (Hd : 0 <= s / 256 < 256)
    by (split; [apply Z.div_pos; lia | apply Z.div_lt_upper_bound; lia]).
  repeat split; try lia.
  - apply Z.mod_small; lia.
  - apply Z.mod_pos_bound; lia.
  - apply Z.mod_pos_bound; lia.
Qed.

(** ** The protocol codec *)

(** C1: the power-on, power-off and status-query frames, and the set-timer
    frame for every [minutes] in [1, 60], have the layout
    [0x3A, 0x01, opcode, 0x00, payloadLen, payload..., checksum, 0x0A] with the
    checksum the sum modulo 256 of the bytes from index 1 to the end of the
    payload; power has opcode 0x20 and payload 0x01 or 0x00, the status query
    opcode 0x10 and no payload, set-timer opcode 0x31 and a 2-byte payload. *)
Theorem command_frames_layout :
  is_command_frame 0x20 [0x01] TURN_ON_CMD /\
  is_command_frame 0x20 [0x00] TURN_OFF_CMD /\
  is_command_frame 0x10 [] STATUS_QUERY_CMD /\
  forall minutes : Z, 1 <= minutes <= 60 ->
    exists f : list Z,
      create_timer_command minutes = Ok f /\
      is_command_frame 0x31 [minutes * 60 / 256; (minutes * 60) mod 256] f.
Proof.
  repeat split; try reflexivity.
  intros minutes Hm. rewrite create_timer_command_eq.
  destruct (timer_seconds_bounds minutes Hm) as (Hhi & _ & _). cbv zeta in Hhi.
  eexists. split; [reflexivity |].
  unfold is_command_frame, frame_checksum.
  cbn [length app firstn skipn sum fold_left Nat.add].
  rewrite Hhi. repeat f_equal; lia.
Qed.

Lemma command_frames_layout_witness :
  exists f : list Z,
    create_timer_command 20 = Ok f /\
    is_command_frame 0x31 [20 * 60 / 256; (20 * 60) mod 256] f.
Proof.
  apply (proj2 (proj2 (proj2 command_frames_layout)) 20). lia.
Defined.

(** C2, as stated, fails: the checksum is not the sum over opcode, length
    and payload only.  The power-on frame carries 0x23 where that sum is
    0x22, and the one-minute set-timer frame carries 0x70 where it is 0x6F. *)
Lemma checksum_is_not_opcode_len_payload_only :
  checksum_byte TURN_ON_CMD = Some 0x23 /\
  opcode_len_payload_sum 0x20 [0x01] = 0x22 /\
  create_timer_command 1 = Ok [0x3A; 0x01; 0x31; 0x00; 0x02; 0x00; 0x3C; 0x70; 0x0A] /\
  opcode_len_payload_sum 0x31 [0x00; 0x3C] = 0x6F /\
  ~ (forall minutes : Z, 1 <= minutes <= 60 ->
       forall f : list Z, create_timer_command minutes = Ok f ->
         checksum_byte f =
         Some (opcode_len_payload_sum 0x31
                 [minutes * 60 / 256; (minutes * 60) mod 256])).
Proof.
  repeat split; try reflexivity.
  intros H. specialize (H 1 ltac:(lia) _ eq_refl). vm_compute in H. discriminate.
Qed.

(** C2, amended: the checksum byte of the power, status-query and set-timer
    frames (every [minutes] in [1, 60]) is the sum modulo 256 of the header
    byte 0x01, the opcode, the header byte 0x00, the payload length and the
    payload bytes. *)
Theorem checksum_covers_header_opcode_len_payload :
  checksum_byte TURN_ON_CMD = Some (header_opcode_len_payload_sum 0x20 [0x01]) /\
  checksum_byte TURN_OFF_CMD = Some (header_opcode_len_payload_sum 0x20 [0x00]) /\
  checksum_byte STATUS_QUERY_CMD = Some (header_opcode_len_payload_sum 0x10 []) /\
  forall minutes : Z, 1 <= minutes <= 60 ->
    exists f : list Z,
      create_timer_command minutes = Ok f /\
      checksum_byte f =
      Some (header_opcode_len_payload_sum 0x31
              [minutes * 60 / 256; (minutes * 60) mod 256]).
Proof.
  repeat split; try reflexivity.
  intros minutes Hm. rewrite create_timer_command_eq.
  destruct (timer_seconds_bounds minutes Hm) as (Hhi & _ & _). cbv zeta in Hhi.
  eexists. split; [reflexivity |].
  unfold checksum_byte, header_opcode_len_payload_sum.
  cbn [length Nat.sub nth_error sum fold_left].
  rewrite Hhi. apply f_equal. apply (f_equal (fun x => x mod 256)).
  change (Z.of_nat 2) with 2. lia.
Qed.

Lemma checksum_covers_header_opcode_len_payload_witness :
  exists f : list Z,
    create_timer_command 20 = Ok f /\
    checksum_byte f =
    Some (header_opcode_len_payload_sum 0x31 [20 * 60 / 256; (20 * 60) mod 256]).
Proof.
  apply (proj2 (proj2 (proj2 checksum_covers_header_opcode_len_payload)) 20). lia.
Defined.

(** C3: for every [minutes] in [1, 60] the two payload bytes of the
    set-timer frame are the big-endian 16-bit encoding of [minutes * 60], and
    reading them back as [(high << 8) | low] gives [minutes * 60]. *)
Theorem timer_payload_roundtrip (minutes : Z) :
  1 <= minutes <= 60 ->
  exists (f : list Z) (high low : Z),
    create_timer_command minutes = Ok f /\
    timer_payload f = Some (high, low) /\
    high = minutes * 60 / 256 /\ low = (minutes * 60) mod 256 /\
    0 <= high < 256 /\ 0 <= low < 256 /\
    be16 high low = minutes * 60.
Proof.
  intros Hm. rewrite create_timer_command_eq.
  destruct (timer_seconds_bounds minutes Hm) as (Hhi & Hhb & Hlb).
  cbv zeta in Hhi, Hhb, Hlb.
  eexists. exists (minutes * 60 / 256), ((minutes * 60) mod 256).
  split; [reflexivity |].
  split; [unfold timer_payload; cbn [nth_error]; rewrite Hhi; reflexivity |].
  repeat split; try lia.
  rewrite be16_add by lia.
  pose proof (Z.div_mod (minutes * 60) 256 ltac:(lia)). lia.
Qed.

Lemma timer_payload_roundtrip_witness :
  exists (f : list Z) (high low : Z),
    create_timer_command 20 = Ok f /\
    timer_payload f = Some (high, low) /\
    high = 20 * 60 / 256 /\ low = (20 * 60) mod 256 /\
    0 <= high < 256 /\ 0 <= low < 256 /\
    be16 high low = 20 * 60.
Proof.
  apply (timer_payload_roundtrip 20). lia.
Defined.

(** C4, as stated, fails: [create_timer_command] returns a frame for 0 and
    for 61 instead of raising. *)
Lemma create_timer_command_accepts_0_and_61 :
  create_timer_command 0 = Ok [0x3A; 0x01; 0x31; 0x00; 0x02; 0x00; 0x00; 0x34; 0x0A] /\
  create_timer_command 61 = Ok [0x3A; 0x01; 0x31; 0x00; 0x02; 0x0E; 0x4C; 0x8E; 0x0A].
Proof. split; reflexivity. Qed.

(** C4, amended: [create_timer_command] checks no range and never raises;
    for every integer [minutes] it returns the whole 9-byte set-timer frame
    [3A 01 31 00 02 high low checksum 0A]: start byte, the fixed header
    bytes, opcode 0x31, payload length 2, the two payload bytes holding the
    low 16 bits of [minutes * 60] big-endian, the checksum (sum modulo 256 of
    the bytes from index 1 to the end of the payload) and the terminator.
    In particular 0 gives [3A 01 31 00 02 00 00 34 0A] and 61 gives
    [3A 01 31 00 02 0E 4C 8E 0A]. *)
Theorem create_timer_command_total :
  (forall minutes : Z,
     exists (f : list Z) (high low : Z),
       create_timer_command minutes = Ok f /\
       f = [0x3A; 0x01; 0x31; 0x00; 0x02; high; low;
            (0x01 + 0x31 + 0x00 + 0x02 + high + low) mod 256; 0x0A] /\
       is_command_frame 0x31 [high; low] f /\
       length f = 9%nat /\
       0 <= high < 256 /\ 0 <= low < 256 /\
       be16 high low = (minutes * 60) mod 65536) /\
  create_timer_command 0
  = Ok [0x3A; 0x01; 0x31; 0x00; 0x02; 0x00; 0x00; 0x34; 0x0A] /\
  create_timer_command 61
  = Ok [0x3A; 0x01; 0x31; 0x00; 0x02; 0x0E; 0x4C; 0x8E; 0x0A].
Proof.
  split; [| split; reflexivity].
  intros minutes. rewrite create_timer_command_eq. cbv zeta.
  set (s := minutes * 60).
  pose proof (Z.mod_pos_bound (s / 256) 256 ltac:(lia)) as Hhigh.
  pose proof (Z.mod_pos_bound s 256 ltac:(lia)) as Hlow.
  exists [0x3A; 0x01; 0x31; 0x00; 0x02; (s / 256) mod 256; s mod 256;
          (0x01 + 0x31 + 0x00 + 0x02 + (s / 256) mod 256 + s mod 256) mod 256;
          0x0A], ((s / 256) mod 256), (s mod 256).
  split; [reflexivity |]. split; [reflexivity |].
  split.
  - unfold is_command_frame, frame_checksum.
    cbn [length app firstn skipn sum fold_left Nat.add].
    repeat f_equal; lia.
  - split; [reflexivity |]. split; [exact Hhigh |]. split; [exact Hlow |].
    rewrite be16_add by exact Hlow.
    change 65536 with (256 * 256). rewrite Z.rem_mul_r by lia. lia.
Qed.

(** ** The notification handler *)

Lemma handler_total (link : Link) (data : list Z) (s : Coordinator) :
  exists s' : Coordinator, _notification_handler link data s = Some (Ok tt, s').
Proof.
  split_data data; unfold_handler; cbn;
    repeat (break_if; cbn); eexists; reflexivity.
Qed.

Lemma handler_ignored (link : Link) (data : list Z) (s : Coordinator) :
  ignored_frame data -> _notification_handler link data s = Some (Ok tt, s).
Proof.
  unfold ignored_frame. intros Hign.
  split_data data; unfold_handler; cbn in *;
    repeat (break_if; cbn); try reflexivity; exfalso; eqb_to_prop; subst;
    destruct Hign as [Hc | [Hc | [Hc | [Hc | Hc]]]];
    try lia; try congruence;
    try (destruct Hc as [Hc1 Hc2]; first [lia | congruence]);
    try (specialize (Hc _ eq_refl); lia).
Qed.

(** C5: the notification handler never raises, whatever the bytes; a frame
    that is too short, does not start with 0x2A, is a status frame of fewer
    than 10 bytes or a power frame of fewer than 6 bytes, or has an unknown
    opcode, is dropped: the coordinator (device state, handles and the list
    of emitted notifications) stays exactly as it was. *)
Theorem notification_handler_total_and_ignores
  (link : Link) (data : list Z) (s : Coordinator) :
  (exists s' : Coordinator, _notification_handler link data s = Some (Ok tt, s')) /\
  (ignored_frame data -> _notification_handler link data s = Some (Ok tt, s)).
Proof.
  split; [apply handler_total | apply handler_ignored].
Qed.

Lemma notification_handler_total_and_ignores_witness :
  _notification_handler (mkLink true true (fun _ => true) true 0)
    [0x2A; 0x00; 0x10; 0x00; 0x00; 0x01] init = Some (Ok tt, init).
Proof.
  apply (proj2 (notification_handler_total_and_ignores _ _ _)).
  unfold ignored_frame. right; right; left.
  split; [reflexivity | simpl; lia].
Defined.

Lemma handler_status_frame
  (link : Link) (data : list Z) (status_byte timer_high timer_low : Z)
  (s : Coordinator) :
  status_frame data status_byte timer_high timer_low ->
  _notification_handler link data s =
  status_update link status_byte (be16 timer_high timer_low) s.
Proof.
  intros (Hlen & H0 & H2 & H5 & H8 & H9).
  split_data data; cbn in Hlen, H0, H2, H5, H8, H9; try lia.
  injection H0 as ->. injection H2 as ->. injection H5 as ->.
  injection H8 as ->. injection H9 as ->.
  unfold _notification_handler, index, lift, bind. reflexivity.
Qed.

Lemma handler_power_frame
  (link : Link) (data : list Z) (status_byte : Z) (s : Coordinator) :
  power_frame data status_byte ->
  _notification_handler link data s = power_ack status_byte s.
Proof.
  intros (Hlen & H0 & H2 & H5).
  do 6 (try destruct data as [| ? data]); cbn in Hlen, H0, H2, H5; try lia.
  injection H0 as ->. injection H2 as ->. injection H5 as ->.
  unfold _notification_handler, index, lift, bind. reflexivity.
Qed.

Lemma status_update_same (link : Link) (status_byte timer_seconds : Z) (s : Coordinator) :
  (status_byte =? 0x01) = _is_on s ->
  timer_seconds = _timer_remaining s ->
  status_update link status_byte timer_seconds s = Some (Ok tt, s).
Proof.
  intros Hf Hr. unfold status_update. unfold_monad.
  rewrite Hf, Hr, Bool.eqb_reflx, Z.eqb_refl. reflexivity.
Qed.

Lemma status_update_changed (link : Link) (status_byte timer_seconds : Z) (s : Coordinator) :
  (status_byte =? 0x01) <> _is_on s \/ timer_seconds <> _timer_remaining s ->
  exists s' : Coordinator,
    status_update link status_byte timer_seconds s = Some (Ok tt, s') /\
    _is_on s' = (status_byte =? 0x01) /\
    _timer_remaining s' = timer_seconds /\
    trace s' =
    trace s ++ [Updated (mkUpdatedData (status_byte =? 0x01) (Some timer_seconds))] /\
    (0 < timer_seconds -> truthy (_countdown_timer s') = true) /\
    (timer_seconds = 0 -> _countdown_timer s' = None).
Proof.
  intros Hd. unfold status_update, _start_countdown, _stop_countdown.
  unfold_monad. cbn.
  destruct (negb (Bool.eqb (status_byte =? 1) (_is_on s))
            || negb (timer_seconds =? _timer_remaining s)) eqn:Hchg.
  - repeat (break_if; cbn); eexists; (split; [reflexivity |]); cbn;
      repeat split; try reflexivity; intros; eqb_to_prop; try lia;
      try congruence; try assumption;
      repeat match goal with
             | H : _ && _ = false |- _ => apply andb_false_iff in H; destruct H
             | H : truthy ?o = _ |- _ => destruct o; cbn in H; try discriminate
             end; eqb_to_prop; try lia; try reflexivity; try discriminate;
      try assumption.
  - exfalso. eqb_to_prop. destruct Hd; congruence.
Qed.

(** C7: a status response whose power flag and remaining seconds equal the
    coordinator's current values changes nothing and notifies nobody; when
    either differs, both fields are replaced and exactly one notification is
    emitted; hence the same status response applied a second time (for
    instance one reporting 0 seconds remaining) is a no-op. *)
Theorem status_update_idempotent
  (link : Link) (data : list Z) (status_byte timer_high timer_low : Z)
  (s : Coordinator) :
  status_frame data status_byte timer_high timer_low ->
  let flag := status_byte =? 0x01 in
  let remaining := be16 timer_high timer_low in
  (flag = _is_on s -> remaining = _timer_remaining s ->
   _notification_handler link data s = Some (Ok tt, s)) /\
  (flag <> _is_on s \/ remaining <> _timer_remaining s ->
   exists s' : Coordinator,
     _notification_handler link data s = Some (Ok tt, s') /\
     _is_on s' = flag /\ _timer_remaining s' = remaining /\
     trace s' = trace s ++ [Updated (mkUpdatedData flag (Some remaining))]) /\
  (exists s1 : Coordinator,
     _notification_handler link data s = Some (Ok tt, s1) /\
     _notification_handler link data s1 = Some (Ok tt, s1)).
Proof.
  intros Hframe flag remaining.
  assert (Hsame : forall t : Coordinator,
             flag = _is_on t -> remaining = _timer_remaining t ->
             _notification_handler link data t = Some (Ok tt, t)).
  { intros t Hf Hr. rewrite (handler_status_frame _ _ _ _ _ _ Hframe).
    now apply status_update_same. }
  assert (Hdiff : flag <> _is_on s \/ remaining <> _timer_remaining s ->
             exists s' : Coordinator,
               _notification_handler link data s = Some (Ok tt, s') /\
               _is_on s' = flag /\ _timer_remaining s' = remaining /\
               trace s' = trace s ++ [Updated (mkUpdatedData flag (Some remaining))]).
  { intros Hd. rewrite (handler_status_frame _ _ _ _ _ _ Hframe).
    destruct (status_update_changed link status_byte remaining s Hd)
      as (s' & Hrun & Hon & Hrem & Htr & _).
    exists s'. auto. }
  split; [exact (Hsame s) |]. split; [exact Hdiff |].
  destruct (Bool.bool_dec flag (_is_on s)) as [Hf | Hf];
    [destruct (Z.eq_dec remaining (_timer_remaining s)) as [Hr | Hr] |].
  - exists s. split; apply Hsame; assumption.
  - destruct (Hdiff (or_intror Hr)) as (s' & Hrun & Hon & Hrem & _).
    exists s'. split; [exact Hrun | apply Hsame; congruence].
  - destruct (Hdiff (or_introl Hf)) as (s' & Hrun & Hon & Hrem & _).
    exists s'. split; [exact Hrun | apply Hsame; congruence].
Qed.

Lemma status_update_idempotent_witness :
  exists s1 : Coordinator,
    _notification_handler (mkLink true true (fun _ => true) true 0)
      [0x2A; 0x00; 0x10; 0x00; 0x00; 0x01; 0x00; 0x0F; 0x00; 0x00] init
    = Some (Ok tt, s1) /\
    _notification_handler (mkLink true true (fun _ => true) true 0)
      [0x2A; 0x00; 0x10; 0x00; 0x00; 0x01; 0x00; 0x0F; 0x00; 0x00] s1
    = Some (Ok tt, s1).
Proof.
  apply (proj2 (proj2 (status_update_idempotent
                         (mkLink true true (fun _ => true) true 0)
                         [0x2A; 0x00; 0x10; 0x00; 0x00; 0x01; 0x00; 0x0F; 0x00; 0x00]
                         0x01 0x00 0x00 init
                         ltac:(unfold status_frame; simpl; repeat split; lia)))).
Defined.

(** ** Disconnecting *)





(** ** Reasoning in the monad *)

Lemma bind_ok {A B : Type} (m : M A) (k : A -> M B) (s s' : Coordinator) (a : A) :
  m s = Some (Ok a, s') -> bind m k s = k a s'.
Proof. intros H. unfold bind. rewrite H. reflexivity. Qed.

Lemma keeps_ret {A B : Type} (f : Coordinator -> B) (a : A) : keeps f (ret a).
Proof. intros s s' r H. injection H as _ <-. reflexivity. Qed.

Lemma keeps_raise {A B : Type} (f : Coordinator -> B) (e : exn) :
  keeps f (@raise A e).
Proof. intros s s' r H. injection H as _ <-. reflexivity. Qed.

Lemma keeps_lift {A B : Type} (f : Coordinator -> B) (x : result A) :
  keeps f (lift x).
Proof. intros s s' r H. injection H as _ <-. reflexivity. Qed.

Lemma keeps_get {B : Type} (f : Coordinator -> B) : keeps f get.
Proof. intros s s' r H. injection H as _ <-. reflexivity. Qed.

Lemma keeps_out_of_fuel {A B : Type} (f : Coordinator -> B) :
  keeps f (@out_of_fuel A).
Proof. intros s s' r H. discriminate H. Qed.

Lemma keeps_modify {B : Type} (f : Coordinator -> B) (g : Coordinator -> Coordinator) :
  (forall s, f (g s) = f s) -> keeps f (modify g).
Proof. intros Hg s s' r H. injection H as _ <-. apply Hg. Qed.

Lemma keeps_bind {A B C : Type} (f : Coordinator -> C) (m : M A) (k : A -> M B) :
  keeps f m -> (forall a, keeps f (k a)) -> keeps f (bind m k).
Proof.
  intros Hm Hk s s' r H. unfold bind in H.
  destruct (m s) as [[[a | e] s1] |] eqn:E.
  - rewrite (Hk a _ _ _ H). exact (Hm _ _ _ E).
  - injection H as _ <-. exact (Hm _ _ _ E).
  - discriminate H.
Qed.

Lemma keeps_try {A B : Type} (f : Coordinator -> B) (m : M A) (h : exn -> M A) :
  keeps f m -> (forall e, keeps f (h e)) -> keeps f (try_except m h).
Proof.
  intros Hm Hh s s' r H. unfold try_except in H.
  destruct (m s) as [[[a | e] s1] |] eqn:E.
  - injection H as _ <-. exact (Hm _ _ _ E).
  - rewrite (Hh e _ _ _ H). exact (Hm _ _ _ E).
  - discriminate H.
Qed.

Lemma keeps_when {B : Type} (f : Coordinator -> B) (b : bool) (m : M unit) :
  keeps f m -> keeps f (when b m).
Proof. intros Hm. destruct b; [exact Hm | apply keeps_ret]. Qed.

Lemma keeps_weaken {A B C : Type} (f : Coordinator -> B) (g : B -> C) (m : M A) :
  keeps f m -> keeps (fun s => g (f s)) m.
Proof. intros Hm s s' r H. now rewrite (Hm _ _ _ H). Qed.

(** Decompose a goal [keeps f m] along the structure of [m]. *)
Ltac keeps_step :=
  match goal with
  | |- keeps _ (bind _ _) => apply keeps_bind; [| intros ?]
  | |- keeps _ (ret _) => apply keeps_ret
  | |- keeps _ (raise _) => apply keeps_raise
  | |- keeps _ (lift _) => apply keeps_lift
  | |- keeps _ get => apply keeps_get
  | |- keeps _ out_of_fuel => apply keeps_out_of_fuel
  | |- keeps _ (when _ _) => apply keeps_when
  | |- keeps _ (try_except _ _) => apply keeps_try; [| intros ?]
  | |- keeps _ (modify _) => apply keeps_modify; intros ?; reflexivity
  | |- keeps _ (emit _) => apply keeps_modify; intros ?; reflexivity
  | |- keeps _ (sleep _) => apply keeps_modify; intros ?; reflexivity
  | |- keeps _ (async_set_updated_data _) =>
      apply keeps_modify; intros ?; reflexivity
  | |- keeps _ (if ?c then _ else _) => destruct c
  | |- keeps _ (match ?x with _ => _ end) => destruct x
  end.

Ltac keeps_auto := repeat keeps_step.

Section Frames.

Variable link : Link.

Lemma disconnected_keeps_countdown : keeps countdown_view _disconnected.
Proof. unfold _disconnected. keeps_auto. Qed.

Lemma write_keeps_session (command : list Z) :
  keeps session_view (write_gatt_char link command).
Proof. unfold write_gatt_char. keeps_auto. Qed.

Lemma status_retry_keeps_session (send : list Z -> M unit) (attempts : list Z) :
  (forall command, keeps session_view (send command)) ->
  keeps session_view (status_retry send attempts).
Proof.
  intros Hsend. induction attempts as [| attempt rest IH]; cbn [status_retry].
  - apply keeps_ret.
  - keeps_auto; auto.
Qed.

Lemma connect_with_keeps_session (send : list Z -> M unit) :
  (forall command, keeps session_view (send command)) ->
  keeps session_view (async_connect_with link send).
Proof.
  intros Hsend. unfold async_connect_with, establish_connection, start_notify.
  keeps_auto. now apply status_retry_keeps_session.
Qed.

Lemma send_keeps_session (fuel : nat) (command : list Z) :
  keeps session_view (_send_command link fuel command).
Proof.
  revert command. induction fuel as [| fuel IH]; intros command;
    cbn [_send_command].
  - apply keeps_out_of_fuel.
  - keeps_auto; try apply write_keeps_session.
    now apply connect_with_keeps_session.
Qed.

Lemma connect_with_keeps_countdown (send : list Z -> M unit) :
  (forall command, keeps session_view (send command)) ->
  keeps countdown_view (async_connect_with link send).
Proof.
  intros Hsend.
  exact (keeps_weaken session_view snd _ (connect_with_keeps_session send Hsend)).
Qed.

Lemma send_keeps_countdown (fuel : nat) (command : list Z) :
  keeps countdown_view (_send_command link fuel command).
Proof.
  exact (keeps_weaken session_view snd _ (send_keeps_session fuel command)).
Qed.

Lemma disconnect_keeps_countdown : keeps countdown_view (async_disconnect link).
Proof.
  unfold async_disconnect, client_disconnect. keeps_auto.
  apply disconnected_keeps_countdown.
Qed.

Lemma turn_off_keeps_countdown (fuel : nat) :
  keeps countdown_view (async_turn_off link fuel).
Proof. unfold async_turn_off. keeps_auto. apply send_keeps_countdown. Qed.

Lemma turn_on_keeps_countdown (fuel : nat) :
  keeps countdown_view (async_turn_on link fuel).
Proof.
  unfold async_turn_on, _query_status. keeps_auto; apply send_keeps_countdown.
Qed.

Lemma query_and_disconnect_keeps_countdown (fuel : nat) :
  keeps countdown_view (query_and_disconnect link fuel).
Proof.
  unfold query_and_disconnect, _query_status. keeps_auto.
  - apply send_keeps_countdown.
  - apply disconnect_keeps_countdown.
Qed.

End Frames.

(** ** Termination: enough fuel gives a result *)

Lemma runs_ret {A : Type} (P : Coordinator -> Prop) (a : A) : runs P (ret a).
Proof. intros s Hs. exists (Ok a), s. auto. Qed.

Lemma runs_raise {A : Type} (P : Coordinator -> Prop) (e : exn) :
  runs P (@raise A e).
Proof. intros s Hs. exists (Raise e), s. auto. Qed.

Lemma runs_lift {A : Type} (P : Coordinator -> Prop) (x : result A) :
  runs P (lift x).
Proof. intros s Hs. exists x, s. auto. Qed.

Lemma runs_get (P : Coordinator -> Prop) : runs P get.
Proof. intros s Hs. exists (Ok s), s. auto. Qed.

Lemma runs_modify (P : Coordinator -> Prop) (g : Coordinator -> Coordinator) :
  (forall s, P s -> P (g s)) -> runs P (modify g).
Proof. intros Hg s Hs. exists (Ok tt), (g s). auto. Qed.

Lemma runs_bind {A B : Type} (P : Coordinator -> Prop) (m : M A) (k : A -> M B) :
  runs P m -> (forall a, runs P (k a)) -> runs P (bind m k).
Proof.
  intros Hm Hk s Hs. destruct (Hm s Hs) as (r & s1 & E & H1).
  unfold bind. rewrite E. destruct r as [a | e].
  - exact (Hk a s1 H1).
  - exists (Raise e), s1. auto.
Qed.

Lemma runs_get_bind {B : Type} (P : Coordinator -> Prop) (k : Coordinator -> M B) :
  (forall s, P s -> exists r s', k s s = Some (r, s') /\ P s') ->
  runs P (bind get k).
Proof. intros Hk s Hs. exact (Hk s Hs). Qed.

Lemma runs_try {A : Type} (P : Coordinator -> Prop) (m : M A) (h : exn -> M A) :
  runs P m -> (forall e, runs P (h e)) -> runs P (try_except m h).
Proof.
  intros Hm Hh s Hs. destruct (Hm s Hs) as (r & s1 & E & H1).
  unfold try_except. rewrite E. destruct r as [a | e].
  - exists (Ok a), s1. auto.
  - exact (Hh e s1 H1).
Qed.

Lemma runs_when (P : Coordinator -> Prop) (b : bool) (m : M unit) :
  runs P m -> runs P (when b m).
Proof. intros Hm. destruct b; [exact Hm | apply runs_ret]. Qed.

Lemma runs_anywhere {A : Type} (m : M A) :
  (forall s, exists r s', m s = Some (r, s')) -> runs anywhere m.
Proof.
  intros H s _. destruct (H s) as (r & s' & E). exists r, s'. split; [exact E | exact I].
Qed.

(** Decompose a goal [runs P m] along the structure of [m]; [P] is
    [connected] or [anywhere]. *)
Ltac runs_step :=
  match goal with
  | |- runs _ (bind _ _) => apply runs_bind; [| intros ?]
  | |- runs _ (ret _) => apply runs_ret
  | |- runs _ (raise _) => apply runs_raise
  | |- runs _ (lift _) => apply runs_lift
  | |- runs _ get => apply runs_get
  | |- runs _ (when _ _) => apply runs_when
  | |- runs _ (try_except _ _) => apply runs_try; [| intros ?]
  | |- runs _ (modify _) => apply runs_modify; intros ? ?; assumption
  | |- runs _ (emit _) => apply runs_modify; intros ? ?; assumption
  | |- runs _ (sleep _) => apply runs_modify; intros ? ?; assumption
  | |- runs _ (async_set_updated_data _) =>
      apply runs_modify; intros ? ?; assumption
  | |- runs _ (if ?c then _ else _) => destruct c
  | |- runs _ (match ?x with _ => _ end) => destruct x
  end.

Ltac runs_auto := repeat runs_step.

Section Termination.

Variable link : Link.

Lemma write_runs (P : Coordinator -> Prop) (command : list Z) :
  (forall v s, P s -> P (set_write_calls v s)) ->
  (forall v s, P s -> P (set_trace v s)) ->
  runs P (write_gatt_char link command).
Proof.
  intros Hw Ht. unfold write_gatt_char. runs_auto.
  - apply runs_modify. intros; now apply Hw.
  - apply runs_modify. intros; now apply Ht.
Qed.

Lemma write_runs_connected (command : list Z) :
  runs connected (write_gatt_char link command).
Proof. apply write_runs; intros v s Hs; exact Hs. Qed.

Lemma write_runs_anywhere (command : list Z) :
  runs anywhere (write_gatt_char link command).
Proof. apply write_runs; intros v s Hs; exact Hs. Qed.

(** On an open connection one unit of fuel is enough: [async_connect] is
    not entered. *)
Lemma send_runs_connected (fuel : nat) (command : list Z) :
  runs connected (_send_command link (S fuel) command).
Proof.
  cbn [_send_command]. apply runs_get_bind. intros s Hs.
  unfold connected in Hs. rewrite Hs. cbn [negb when].
  revert s Hs. change (runs connected
    (bind (ret tt) (fun _ =>
       s <- get ;;
       when (truthy (_disconnect_timer s))
         (modify (set_disconnect_timer (option_map cancel (_disconnect_timer s)))) ;;
       try_except (write_gatt_char link command ;; sleep 500)
         (fun e => match e with
                   | BleakError => raise UpdateFailed
                   | _ => raise e
                   end) ;;
       s <- get ;;
       if negb (truthy (_countdown_timer s))
       then modify (set_disconnect_timer
                      (Some (mkTimerHandle DISCONNECT_DELAY CreateDisconnectTask false)))
       else ret tt))).
  runs_auto; apply write_runs_connected.
Qed.

Lemma status_retry_runs_connected (send : list Z -> M unit) (attempts : list Z) :
  (forall command, runs connected (send command)) ->
  runs connected (status_retry send attempts).
Proof.
  intros Hsend. induction attempts as [| attempt rest IH]; cbn [status_retry].
  - apply runs_ret.
  - runs_auto; auto.
Qed.

Lemma connect_runs (fuel : nat) :
  runs anywhere (async_connect link (S fuel)).
Proof.
  apply runs_anywhere. intros s.
  unfold async_connect, async_connect_with, establish_connection, start_notify.
  unfold_monad.
  destruct (client_connected s); [eauto |].
  destruct (establish_ok link); [| eauto].
  destruct (start_notify_ok link); [| eauto].
  cbv beta iota.
  match goal with
  | |- exists r s', status_retry ?send ?l ?s0 = _ =>
      destruct (status_retry_runs_connected send l
                  (send_runs_connected fuel) s0 eq_refl) as (r & s' & E & _)
  end.
  eauto.
Qed.

(** Two units of fuel are enough from any state. *)
Lemma send_runs (fuel : nat) (command : list Z) :
  runs anywhere (_send_command link (S (S fuel)) command).
Proof.
  change (_send_command link (S (S fuel)) command) with
    (s <- get ;;
     when (negb (client_connected s)) (async_connect link (S fuel)) ;;
     s <- get ;;
     when (truthy (_disconnect_timer s))
       (modify (set_disconnect_timer (option_map cancel (_disconnect_timer s)))) ;;
     try_except (write_gatt_char link command ;; sleep 500)
       (fun e => match e with
                 | BleakError => raise UpdateFailed
                 | _ => raise e
                 end) ;;
     s <- get ;;
     if negb (truthy (_countdown_timer s))
     then modify (set_disconnect_timer
                    (Some (mkTimerHandle DISCONNECT_DELAY CreateDisconnectTask false)))
     else ret tt).
  runs_auto; first [apply connect_runs | apply write_runs_anywhere].
Qed.

Lemma handler_runs (data : list Z) :
  runs anywhere (_notification_handler link data).
Proof.
  apply runs_anywhere. intros s.
  destruct (handler_total link data s) as (s' & E). eauto.
Qed.

Lemma disconnect_runs : runs anywhere (async_disconnect link).
Proof.
  unfold async_disconnect, client_disconnect, _disconnected. runs_auto.
Qed.

Lemma perform_runs (fuel : nat) (op : operation) :
  runs anywhere (perform link (S (S fuel)) op).
Proof.
  destruct op as [| | | data | | [] | | | | | minutes]; cbn [perform].
  - apply connect_runs.
  - apply disconnect_runs.
  - unfold _disconnected. runs_auto.
  - apply handler_runs.
  - unfold _update_countdown. runs_auto.
  - unfold query_and_disconnect, _query_status.
    runs_auto; first [apply send_runs | apply disconnect_runs].
  - unfold async_turn_on, _query_status. runs_auto; apply send_runs.
  - unfold async_turn_off. runs_auto; apply send_runs.
  - unfold _auto_turn_off, async_turn_off. runs_auto; apply send_runs.
  - apply send_runs.
  - unfold set_timer_duration. runs_auto.
Qed.

End Termination.

(** ** The remaining time is never negative *)

Lemma be16_nonneg (high low : Z) :
  0 <= high < 256 -> 0 <= low < 256 -> 0 <= be16 high low.
Proof. intros Hh Hl. rewrite be16_add by exact Hl. lia. Qed.

Lemma byte_data_nth (data : list Z) (i : nat) (b : Z) :
  byte_data data -> nth_error data i = Some b -> 0 <= b < 256.
Proof.
  intros Hb Hn. unfold byte_data in Hb. rewrite Forall_forall in Hb.
  apply Hb. eapply nth_error_In. exact Hn.
Qed.

(** What the handler can do to the remaining time: nothing, or replace it
    by the value read from bytes 8 and 9. *)
Lemma handler_remaining (link : Link) (data : list Z) (s s' : Coordinator)
  (r : result unit) :
  _notification_handler link data s = Some (r, s') ->
  _timer_remaining s' = _timer_remaining s \/
  exists high low : Z,
    nth_error data 8 = Some high /\ nth_error data 9 = Some low /\
    _timer_remaining s' = be16 high low.
Proof.
  intros H.
  split_data data; unfold_handler; cbn in H;
    repeat (break_if_in H; cbn in H);
    injection H as _ <-; cbn;
    first [left; reflexivity | right; do 2 eexists; repeat split].
Qed.

Lemma tick_spec (s : Coordinator) :
  exists s' : Coordinator,
    _update_countdown s = Some (Ok tt, s') /\
    _timer_remaining s' =
    (if 0 <? _timer_remaining s then _timer_remaining s - 1 else _timer_remaining s) /\
    truthy (_countdown_timer s') = (0 <? _timer_remaining s') /\
    _is_on s' = _is_on s.
Proof.
  unfold _update_countdown. unfold_monad. cbn.
  destruct (0 <? _timer_remaining s) eqn:Hpos; cbn.
  - destruct (0 <? _timer_remaining s - 1) eqn:Hpos'; cbn;
      eexists; (split; [reflexivity |]); cbn; rewrite ?Hpos'; auto.
  - eexists. split; [reflexivity |]. cbn. rewrite Hpos. auto.
Qed.

Lemma countdown_view_remaining (s s' : Coordinator) :
  countdown_view s' = countdown_view s -> _timer_remaining s' = _timer_remaining s.
Proof. unfold countdown_view. intros H. now injection H. Qed.

Lemma perform_remaining_nonneg
  (link : Link) (fuel : nat) (op : operation) (s s' : Coordinator)
  (r : result unit) :
  well_formed op -> 0 <= _timer_remaining s ->
  perform link fuel op s = Some (r, s') -> 0 <= _timer_remaining s'.
Proof.
  intros Hwf Hs Hrun.
  assert (Hkeep : forall m : M unit,
             keeps countdown_view m -> m s = Some (r, s') ->
             0 <= _timer_remaining s').
  { intros m Hm E. rewrite (countdown_view_remaining _ _ (Hm _ _ _ E)). exact Hs. }
  destruct op as [| | | data | | [] | | | | | minutes]; cbn [perform] in Hrun.
  - revert Hrun. apply Hkeep. unfold async_connect.
    apply connect_with_keeps_countdown. intros c. apply send_keeps_session.
  - revert Hrun. apply Hkeep, disconnect_keeps_countdown.
  - revert Hrun. apply Hkeep, disconnected_keeps_countdown.
  - destruct (handler_remaining _ _ _ _ _ Hrun) as [E | (hi & lo & H8 & H9 & E)];
      rewrite E; [exact Hs |].
    cbn in Hwf.
    apply be16_nonneg; eapply byte_data_nth; eassumption.
  - destruct (tick_spec s) as (s1 & E & Hrem & _).
    rewrite E in Hrun. injection Hrun as _ <-. rewrite Hrem.
    destruct (Z.ltb_spec 0 (_timer_remaining s)); lia.
  - revert Hrun. apply Hkeep, query_and_disconnect_keeps_countdown.
  - revert Hrun. apply Hkeep, turn_on_keeps_countdown.
  - revert Hrun. apply Hkeep, turn_off_keeps_countdown.
  - revert Hrun. apply Hkeep. unfold _auto_turn_off. keeps_auto.
    apply turn_off_keeps_countdown.
  - revert Hrun. apply Hkeep. unfold _query_status. apply send_keeps_countdown.
  - unfold set_timer_duration, modify in Hrun. injection Hrun as _ <-. exact Hs.
Qed.

(** C6: the remaining time is never negative.  Every operation on the
    coordinator (tick, notification, turn on, turn off, and the others)
    started with a non-negative remaining time ends with one, and with two
    units of fuel it does end; a tick takes exactly 1 off a positive
    remaining time and leaves 0 at 0, the countdown handle staying scheduled
    exactly while the remaining time is positive; a countdown started by a
    status response of 3 seconds goes through 2, 1, 0 and stops there. *)
Theorem timer_remaining_never_negative
  (link : Link) (fuel : nat) (op : operation) (s : Coordinator) :
  well_formed op -> 0 <= _timer_remaining s ->
  (forall (r : result unit) (s' : Coordinator),
     perform link fuel op s = Some (r, s') -> 0 <= _timer_remaining s') /\
  (exists (r : result unit) (s' : Coordinator),
     perform link (S (S fuel)) op s = Some (r, s') /\ 0 <= _timer_remaining s') /\
  (exists s' : Coordinator,
     _update_countdown s = Some (Ok tt, s') /\
     _timer_remaining s' =
     (if 0 <? _timer_remaining s then _timer_remaining s - 1 else 0) /\
     truthy (_countdown_timer s') = (0 <? _timer_remaining s')) /\
  (exists s3 s0 : Coordinator,
     _notification_handler link
       [0x2A; 0x00; 0x10; 0x00; 0x00; 0x01; 0x00; 0x00; 0x00; 0x03] init
     = Some (Ok tt, s3) /\
     _timer_remaining s3 = 3 /\ truthy (_countdown_timer s3) = true /\
     run_countdown 10 s3 = ([2; 1; 0], s0) /\
     _countdown_timer s0 = None /\ _timer_remaining s0 = 0).
Proof.
  intros Hwf Hs. split; [| split; [| split]].
  - intros r s'. now apply perform_remaining_nonneg.
  - destruct (perform_runs link fuel op s I) as (r & s' & E & _).
    exists r, s'. split; [exact E |].
    now apply (perform_remaining_nonneg link (S (S fuel)) op s s' r).
  - destruct (tick_spec s) as (s' & E & Hrem & Hcd & _).
    exists s'. split; [exact E |]. split; [| exact Hcd].
    rewrite Hrem. destruct (Z.ltb_spec 0 (_timer_remaining s)); lia.
  - do 2 eexists.
    split; [vm_compute; reflexivity |].
    split; [reflexivity |]. split; [reflexivity |].
    split; [vm_compute; reflexivity |].
    split; reflexivity.
Qed.

Lemma timer_remaining_never_negative_witness :
  exists (r : result unit) (s' : Coordinator),
    perform (mkLink true true (fun _ => true) true 0) 2
      (Notification [0x2A; 0x00; 0x10; 0x00; 0x00; 0x01; 0x00; 0x0F; 0x00; 0x2D])
      init = Some (r, s') /\
    0 <= _timer_remaining s'.
Proof.
  apply (proj1 (proj2 (timer_remaining_never_negative
                         (mkLink true true (fun _ => true) true 0) 0
                         (Notification
                            [0x2A; 0x00; 0x10; 0x00; 0x00; 0x01; 0x00; 0x0F; 0x00; 0x2D])
                         init
                         ltac:(cbn; unfold byte_data; repeat constructor; lia)
                         ltac:(cbn; lia)))).
Defined.

(** ** Sending commands *)

Lemma send_unfold (link : Link) (fuel : nat) (command : list Z) :
  _send_command link (S fuel) command =
  (s <- get ;;
   when (negb (client_connected s)) (async_connect link fuel) ;;
   send_tail link command).
Proof. reflexivity. Qed.

Lemma client_connected_sent (command : list Z) (s : Coordinator) :
  client_connected (sent command s) = client_connected s.
Proof. unfold sent. destruct (truthy (_countdown_timer s)); reflexivity. Qed.

Lemma trace_sent (command : list Z) (s : Coordinator) :
  trace (sent command s) = trace s ++ [Wrote command; Slept 500].
Proof. unfold sent. destruct (truthy (_countdown_timer s)); reflexivity. Qed.

Lemma timer_duration_sent (command : list Z) (s : Coordinator) :
  _timer_duration (sent command s) = _timer_duration s.
Proof. unfold sent. destruct (truthy (_countdown_timer s)); reflexivity. Qed.

Lemma auto_off_timer_sent (command : list Z) (s : Coordinator) :
  _auto_off_timer (sent command s) = _auto_off_timer s.
Proof. unfold sent. destruct (truthy (_countdown_timer s)); reflexivity. Qed.

Lemma is_on_sent (command : list Z) (s : Coordinator) :
  _is_on (sent command s) = _is_on s.
Proof. unfold sent. destruct (truthy (_countdown_timer s)); reflexivity. Qed.

Lemma frames_app (t1 t2 : list effect) : frames (t1 ++ t2) = frames t1 ++ frames t2.
Proof.
  induction t1 as [| e t1 IH]; [reflexivity |].
  destruct e; cbn; rewrite IH; reflexivity.
Qed.

Section Sending.

Variable link : Link.
Hypothesis writes_succeed : forall n : nat, write_ok link n = true.

Lemma send_tail_ok (command : list Z) (s : Coordinator) :
  client_connected s = true ->
  send_tail link command s = Some (Ok tt, sent command s).
Proof.
  intros Hc. destruct s as [cl dt on ex ao td tr ct cs tc wc].
  unfold client_connected in Hc. cbn in Hc.
  destruct cl as [[[|]] |]; try discriminate.
  unfold send_tail, write_gatt_char, sent. unfold_monad.
  destruct dt, ct; cbn; rewrite writes_succeed; cbn;
    rewrite <- app_assoc; reflexivity.
Qed.

Lemma send_connected_ok (fuel : nat) (command : list Z) (s : Coordinator) :
  client_connected s = true ->
  _send_command link (S fuel) command s = Some (Ok tt, sent command s).
Proof.
  intros Hc. rewrite send_unfold. unfold bind at 1. unfold get.
  rewrite Hc. cbn [negb when]. unfold bind, ret.
  now apply send_tail_ok.
Qed.

Lemma connect_ok (fuel : nat) (s : Coordinator) :
  client_connected s = false ->
  establish_ok link = true -> start_notify_ok link = true ->
  async_connect link (S fuel) s = Some (Ok tt, sent STATUS_QUERY_CMD (opened s)).
Proof.
  intros Hc He Hn.
  unfold async_connect, async_connect_with, establish_connection, start_notify.
  unfold bind at 1. unfold get. rewrite Hc, He, Hn.
  unfold_monad. cbv beta iota.
  replace (set_trace _ (set_trace _ (set_trace _ (set_client _ s))))
    with (opened s)
    by (unfold opened; destruct s; cbn; rewrite <- !app_assoc; reflexivity).
  cbn [range seq map status_retry]. unfold_monad.
  rewrite send_connected_ok by reflexivity. reflexivity.
Qed.

Lemma send_ok (fuel : nat) (command : list Z) (s : Coordinator) :
  client_connected s = true \/
  (establish_ok link = true /\ start_notify_ok link = true) ->
  _send_command link (S (S fuel)) command s =
  Some (Ok tt, sent command (reconnected s)).
Proof.
  intros Hlink. unfold reconnected.
  destruct (client_connected s) eqn:Hc.
  - now apply send_connected_ok.
  - destruct Hlink as [Hc' | [He Hn]]; [discriminate |].
    rewrite send_unfold. unfold bind at 1. unfold get.
    rewrite Hc. cbn [negb when]. unfold bind at 1.
    rewrite connect_ok by assumption.
    apply send_tail_ok. rewrite client_connected_sent. reflexivity.
Qed.

Lemma reconnected_connected (s : Coordinator) :
  client_connected s = true -> reconnected s = s.
Proof. intros Hc. unfold reconnected. now rewrite Hc. Qed.

Lemma client_connected_reconnected (s : Coordinator) :
  client_connected (reconnected s) = true.
Proof.
  unfold reconnected. destruct (client_connected s) eqn:Hc; [exact Hc |].
  rewrite client_connected_sent. reflexivity.
Qed.

Lemma trace_reconnected (s : Coordinator) :
  trace (reconnected s) =
  trace s ++ (if client_connected s then [] else connect_trace).
Proof.
  unfold reconnected. destruct (client_connected s).
  - now rewrite app_nil_r.
  - rewrite trace_sent. unfold opened. cbn. rewrite <- app_assoc. reflexivity.
Qed.

Lemma timer_duration_reconnected (s : Coordinator) :
  _timer_duration (reconnected s) = _timer_duration s.
Proof.
  unfold reconnected. destruct (client_connected s); [reflexivity |].
  now rewrite timer_duration_sent.
Qed.

Lemma auto_off_timer_reconnected (s : Coordinator) :
  _auto_off_timer (reconnected s) = _auto_off_timer s.
Proof.
  unfold reconnected. destruct (client_connected s); [reflexivity |].
  now rewrite auto_off_timer_sent.
Qed.

End Sending.

Lemma bind_get {B : Type} (k : Coordinator -> M B) (s : Coordinator) :
  bind get k s = k s s.
Proof. reflexivity. Qed.

Lemma bind_ret {A B : Type} (a : A) (k : A -> M B) (s : Coordinator) :
  bind (ret a) k s = k a s.
Proof. reflexivity. Qed.

Lemma bind_modify {B : Type} (g : Coordinator -> Coordinator) (k : unit -> M B)
  (s : Coordinator) :
  bind (modify g) k s = k tt (g s).
Proof. reflexivity. Qed.

Lemma bind_emit {B : Type} (e : effect) (k : unit -> M B) (s : Coordinator) :
  bind (emit e) k s = k tt (set_trace (trace s ++ [e]) s).
Proof. reflexivity. Qed.

Lemma bind_lift_ok {A B : Type} (a : A) (k : A -> M B) (s : Coordinator) :
  bind (lift (Ok a)) k s = k a s.
Proof. reflexivity. Qed.

Lemma bind_assoc {A B C : Type} (m : M A) (k : A -> M B) (h : B -> M C)
  (s : Coordinator) :
  bind (bind m k) h s = bind m (fun a => bind (k a) h) s.
Proof.
  unfold bind. destruct (m s) as [[[a | e] s1] |]; reflexivity.
Qed.

Lemma bind_send {B : Type} (link : Link) (fuel : nat) (command : list Z)
  (k : unit -> M B) (s : Coordinator) :
  (forall n : nat, write_ok link n = true) ->
  client_connected s = true \/
  (establish_ok link = true /\ start_notify_ok link = true) ->
  bind (_send_command link (S (S fuel)) command) k s =
  k tt (sent command (reconnected s)).
Proof. intros Hw Hl. apply bind_ok. now apply send_ok. Qed.

Lemma frames_turn_on_trace (timer_cmd : option (list Z)) :
  frames (turn_on_trace timer_cmd) =
  match timer_cmd with
  | Some cmd => [cmd; TURN_ON_CMD; STATUS_QUERY_CMD]
  | None => [TURN_ON_CMD]
  end.
Proof. destruct timer_cmd; reflexivity. Qed.

Lemma client_connected_set_trace (v : list effect) (s : Coordinator) :
  client_connected (set_trace v s) = client_connected s.
Proof. reflexivity. Qed.

Lemma client_connected_set_is_on (v : bool) (s : Coordinator) :
  client_connected (set_is_on v s) = client_connected s.
Proof. reflexivity. Qed.

Create Rewrite HintDb coord.

#[local] Hint Rewrite client_connected_sent client_connected_set_trace
  client_connected_set_is_on client_connected_reconnected
  timer_duration_sent timer_duration_reconnected
  auto_off_timer_sent auto_off_timer_reconnected
  trace_sent is_on_sent : coord.

Ltac solve_connected :=
  first [ assumption
        | left; autorewrite with coord; reflexivity ].

(** One step of a run in which every transport operation succeeds. *)
Ltac run_step :=
  first [ rewrite bind_assoc
        | rewrite bind_get
        | rewrite bind_ret
        | rewrite bind_lift_ok
        | rewrite bind_modify
        | rewrite bind_emit
        | rewrite bind_send by solve_connected
        | rewrite reconnected_connected by (autorewrite with coord; reflexivity) ];
  cbv beta.

Lemma when_auto_off (s : Coordinator) :
  exists s' : Coordinator,
    when (truthy (_auto_off_timer s)) (modify (set_auto_off_timer None)) s
    = Some (Ok tt, s') /\
    trace s' = trace s /\ _is_on s' = _is_on s /\
    countdown_view s' = countdown_view s /\
    client_connected s' = client_connected s /\
    _auto_off_timer s' = None.
Proof.
  destruct (_auto_off_timer s) eqn:Hao; cbn; eexists; repeat split;
    exact Hao.
Qed.

Lemma turn_on_with_timer
  (link : Link) (fuel : nat) (s : Coordinator) (timer_cmd : list Z) :
  (forall n : nat, write_ok link n = true) ->
  client_connected s = true \/
  (establish_ok link = true /\ start_notify_ok link = true) ->
  0 < _timer_duration s ->
  create_timer_command (_timer_duration s) = Ok timer_cmd ->
  exists s' : Coordinator,
    async_turn_on link (S (S fuel)) s = Some (Ok tt, s') /\
    trace s' = trace (reconnected s) ++ turn_on_trace (Some timer_cmd) /\
    _is_on s' = true.
Proof.
  intros Hw Hl Hdur Hcmd. apply Z.ltb_lt in Hdur.
  unfold async_turn_on, _query_status, sleep, async_set_updated_data.
  rewrite bind_get, Hdur, Hcmd.
  repeat run_step.
  cbn [_timer_duration set_trace set_is_on]. autorewrite with coord.
  cbn [_timer_duration set_trace set_is_on]. autorewrite with coord.
  rewrite Hdur. cbn [when].
  repeat run_step.
  match goal with
  | |- exists s', when _ _ ?s0 = _ /\ _ =>
      destruct (when_auto_off s0) as (s' & E & Htr & Hon & _)
  end.
  exists s'. split; [exact E |]. rewrite Htr, Hon.
  autorewrite with coord. cbn [trace _is_on set_trace set_is_on].
  autorewrite with coord. cbn [trace _is_on set_trace set_is_on].
  autorewrite with coord.
  split; [| reflexivity].
  cbn [turn_on_trace]. rewrite <- !app_assoc. reflexivity.
Qed.

Lemma turn_on_without_timer (link : Link) (fuel : nat) (s : Coordinator) :
  (forall n : nat, write_ok link n = true) ->
  client_connected s = true \/
  (establish_ok link = true /\ start_notify_ok link = true) ->
  _timer_duration s <= 0 ->
  exists s' : Coordinator,
    async_turn_on link (S (S fuel)) s = Some (Ok tt, s') /\
    trace s' = trace (reconnected s) ++ turn_on_trace None /\
    _is_on s' = true.
Proof.
  intros Hw Hl Hdur. apply Z.ltb_ge in Hdur.
  unfold async_turn_on, _query_status, sleep, async_set_updated_data.
  rewrite bind_get, Hdur.
  repeat run_step.
  cbn [_timer_duration set_trace set_is_on]. autorewrite with coord.
  rewrite Hdur. cbn [when].
  repeat run_step.
  match goal with
  | |- exists s', when _ _ ?s0 = _ /\ _ =>
      destruct (when_auto_off s0) as (s' & E & Htr & Hon & _)
  end.
  exists s'. split; [exact E |]. rewrite Htr, Hon.
  cbn [trace _is_on set_trace set_is_on]. autorewrite with coord.
  split; [| reflexivity].
  cbn [turn_on_trace]. rewrite <- !app_assoc. reflexivity.
Qed.

(** ** Turning on *)

(** C9, as stated, fails when the session is not open, which is where the
    idle-disconnect leaves it: after setup (connect) and an idle disconnect,
    [async_turn_on] with a 20-minute timer writes a status query (from the
    lazy reconnect) before the set-timer frame, and with no timer it writes
    a status query before power-on. *)
Lemma turn_on_after_idle_queries_status_first :
  exists idle20 on20 idle0 on0 : Coordinator,
    (set_timer_duration 20 ;;
     async_connect (mkLink true true (fun _ => true) true 0) 2 ;;
     async_disconnect (mkLink true true (fun _ => true) true 0)) init
    = Some (Ok tt, idle20) /\
    async_turn_on (mkLink true true (fun _ => true) true 0) 2 idle20
    = Some (Ok tt, on20) /\
    frames (trace on20) =
    frames (trace idle20) ++
      [STATUS_QUERY_CMD; [0x3A; 0x01; 0x31; 0x00; 0x02; 0x04; 0xB0; 0xE8; 0x0A];
       TURN_ON_CMD; STATUS_QUERY_CMD] /\
    (set_timer_duration 0 ;;
     async_connect (mkLink true true (fun _ => true) true 0) 2 ;;
     async_disconnect (mkLink true true (fun _ => true) true 0)) init
    = Some (Ok tt, idle0) /\
    async_turn_on (mkLink true true (fun _ => true) true 0) 2 idle0
    = Some (Ok tt, on0) /\
    frames (trace on0) = frames (trace idle0) ++ [STATUS_QUERY_CMD; TURN_ON_CMD] /\
    frames (trace on20) <>
    frames (trace idle20) ++
      [[0x3A; 0x01; 0x31; 0x00; 0x02; 0x04; 0xB0; 0xE8; 0x0A];
       TURN_ON_CMD; STATUS_QUERY_CMD] /\
    frames (trace on0) <> frames (trace idle0) ++ [TURN_ON_CMD].
Proof.
  do 4 eexists.
  split; [vm_compute; reflexivity |].
  split; [vm_compute; reflexivity |].
  split; [vm_compute; reflexivity |].
  split; [vm_compute; reflexivity |].
  split; [vm_compute; reflexivity |].
  split; [vm_compute; reflexivity |].
  split; vm_compute; discriminate.
Qed.

(** C9, amended: when every transport operation succeeds, [async_turn_on]
    with a timer duration above 0 writes, after the frames of a lazy
    reconnect if the session was not open (one status query), exactly the
    set-timer frame, the power-on frame and a status query, in this order,
    and sets [is_on] (with one notification) after the power-on frame and
    its settle delays and before the status query; with a timer duration of
    0 or less it writes only the power-on frame after the reconnect's. *)
Theorem turn_on_frames (link : Link) (fuel : nat) (s : Coordinator) :
  (forall n : nat, write_ok link n = true) ->
  client_connected s = true \/
  (establish_ok link = true /\ start_notify_ok link = true) ->
  (0 < _timer_duration s ->
   exists (timer_cmd : list Z) (s' : Coordinator),
     create_timer_command (_timer_duration s) = Ok timer_cmd /\
     async_turn_on link (S (S fuel)) s = Some (Ok tt, s') /\
     trace s' =
     trace s ++ (if client_connected s then [] else connect_trace)
             ++ turn_on_trace (Some timer_cmd) /\
     frames (trace s') =
     frames (trace s) ++ (if client_connected s then [] else [STATUS_QUERY_CMD])
                      ++ [timer_cmd; TURN_ON_CMD; STATUS_QUERY_CMD] /\
     _is_on s' = true) /\
  (_timer_duration s <= 0 ->
   exists s' : Coordinator,
     async_turn_on link (S (S fuel)) s = Some (Ok tt, s') /\
     trace s' =
     trace s ++ (if client_connected s then [] else connect_trace)
             ++ turn_on_trace None /\
     frames (trace s') =
     frames (trace s) ++ (if client_connected s then [] else [STATUS_QUERY_CMD])
                      ++ [TURN_ON_CMD] /\
     _is_on s' = true).
Proof.
  intros Hw Hl. split; intros Hdur.
  - pose proof (create_timer_command_eq (_timer_duration s)) as Hcmd.
    cbv zeta in Hcmd.
    match type of Hcmd with _ = Ok ?c => set (cmd := c) in * end.
    destruct (turn_on_with_timer link fuel s cmd Hw Hl Hdur Hcmd)
      as (s' & E & Htr & Hon).
    rewrite trace_reconnected, <- app_assoc in Htr.
    exists cmd, s'. repeat split; try assumption.
    rewrite Htr, !frames_app. destruct (client_connected s); reflexivity.
  - destruct (turn_on_without_timer link fuel s Hw Hl Hdur) as (s' & E & Htr & Hon).
    rewrite trace_reconnected, <- app_assoc in Htr.
    exists s'. repeat split; try assumption.
    rewrite Htr, !frames_app. destruct (client_connected s); reflexivity.
Qed.

Lemma turn_on_frames_witness :
  exists (timer_cmd : list Z) (s' : Coordinator),
    create_timer_command 20 = Ok timer_cmd /\
    async_turn_on (mkLink true true (fun _ => true) true 0) 2
      (set_timer_duration_field 20 (set_client (Some (mkClient true)) init))
    = Some (Ok tt, s') /\
    trace s' = [] ++ [] ++ turn_on_trace (Some timer_cmd) /\
    frames (trace s') = [] ++ [] ++ [timer_cmd; TURN_ON_CMD; STATUS_QUERY_CMD] /\
    _is_on s' = true.
Proof.
  apply (proj1 (turn_on_frames (mkLink true true (fun _ => true) true 0) 0
                  (set_timer_duration_field 20 (set_client (Some (mkClient true)) init))
                  (fun _ => eq_refl) (or_introl eq_refl))).
  cbn. lia.
Defined.

(** ** Turning off *)

Lemma turn_off_keeps_rest (link : Link) (fuel : nat) :
  keeps (fun s => (_expected_disconnect s, countdown_view s))
    (async_turn_off link fuel).
Proof.
  unfold async_turn_off. keeps_auto.
  exact (keeps_weaken session_view (fun v => (snd (fst (fst v)), snd v)) _
           (send_keeps_session link fuel TURN_OFF_CMD)).
Qed.

Lemma turn_off_post (link : Link) (fuel : nat) (s s' : Coordinator) :
  async_turn_off link fuel s = Some (Ok tt, s') ->
  _is_on s' = false /\ _auto_off_timer s' = None.
Proof.
  unfold async_turn_off, async_set_updated_data. rewrite bind_get.
  destruct (when_auto_off s) as (s1 & E1 & _ & _ & _ & _ & Hao).
  rewrite (bind_ok _ _ _ _ _ E1). unfold bind at 1.
  destruct (_send_command link fuel TURN_OFF_CMD s1) as [[[[] | e] s2] |] eqn:E2;
    try discriminate.
  rewrite bind_modify. unfold emit, modify.
  intros H. injection H as <-. split; [reflexivity |].
  pose proof (send_keeps_session link fuel TURN_OFF_CMD _ _ _ E2) as Hk.
  unfold session_view in Hk. injection Hk as _ _ Hao2 _. cbn. congruence.
Qed.

Lemma turn_off_ok (link : Link) (fuel : nat) (s : Coordinator) :
  (forall n : nat, write_ok link n = true) ->
  client_connected s = true \/
  (establish_ok link = true /\ start_notify_ok link = true) ->
  exists s' : Coordinator,
    async_turn_off link (S (S fuel)) s = Some (Ok tt, s') /\
    frames (trace s') =
    frames (trace s) ++ (if client_connected s then [] else [STATUS_QUERY_CMD])
                     ++ [TURN_OFF_CMD].
Proof.
  intros Hw Hl.
  unfold async_turn_off, async_set_updated_data. rewrite bind_get.
  destruct (when_auto_off s) as (s1 & E1 & Htr & _ & _ & Hc & _).
  rewrite (bind_ok _ _ _ _ _ E1).
  rewrite bind_send by (try assumption; rewrite Hc; exact Hl).
  rewrite bind_modify. eexists. split; [reflexivity |].
  cbn [trace set_trace set_is_on]. autorewrite with coord.
  rewrite trace_reconnected, Htr, Hc, !frames_app.
  destruct (client_connected s); cbn [frames connect_trace];
    rewrite <- ?app_assoc, ?app_nil_r; reflexivity.
Qed.

(** C10: [async_turn_off] sets [is_on] to false and clears the auto-off
    handle, and whatever it returns it leaves the remaining time, the
    configured duration, the countdown handle and the expected-disconnect
    flag as they were; it returns
    (with two units of fuel) and succeeds when the transport does.  An active
    countdown therefore keeps ticking afterwards, until it reaches 0 or a
    status response reporting 0 seconds stops it. *)
Theorem turn_off_leaves_countdown (link : Link) (fuel : nat) (s : Coordinator) :
  (forall (r : result unit) (s' : Coordinator),
     async_turn_off link fuel s = Some (r, s') ->
     _timer_remaining s' = _timer_remaining s /\
     _timer_duration s' = _timer_duration s /\
     _countdown_timer s' = _countdown_timer s /\
     _countdown_start_time s' = _countdown_start_time s /\
     _expected_disconnect s' = _expected_disconnect s /\
     (r = Ok tt -> _is_on s' = false /\ _auto_off_timer s' = None)) /\
  (exists (r : result unit) (s' : Coordinator),
     async_turn_off link (S (S fuel)) s = Some (r, s')) /\
  ((forall n : nat, write_ok link n = true) ->
   client_connected s = true \/
   (establish_ok link = true /\ start_notify_ok link = true) ->
   exists s' : Coordinator,
     async_turn_off link (S (S fuel)) s = Some (Ok tt, s') /\
     frames (trace s') =
     frames (trace s) ++ (if client_connected s then [] else [STATUS_QUERY_CMD])
                      ++ [TURN_OFF_CMD]) /\
  (forall (r : result unit) (s' : Coordinator),
     async_turn_off link fuel s = Some (r, s') ->
     truthy (_countdown_timer s) = true ->
     (1 < _timer_remaining s ->
      exists s'' : Coordinator,
        _update_countdown s' = Some (Ok tt, s'') /\
        _timer_remaining s'' = _timer_remaining s - 1 /\
        truthy (_countdown_timer s'') = true) /\
     (_timer_remaining s = 1 ->
      exists s'' : Coordinator,
        _update_countdown s' = Some (Ok tt, s'') /\
        _timer_remaining s'' = 0 /\ _countdown_timer s'' = None) /\
     (0 < _timer_remaining s ->
      forall (data : list Z) (status_byte : Z),
        status_frame data status_byte 0 0 ->
        exists s'' : Coordinator,
          _notification_handler link data s' = Some (Ok tt, s'') /\
          _timer_remaining s'' = 0 /\ _countdown_timer s'' = None)).
Proof.
  assert (Hframe : forall (r : result unit) (s' : Coordinator),
             async_turn_off link fuel s = Some (r, s') ->
             _timer_remaining s' = _timer_remaining s /\
             _timer_duration s' = _timer_duration s /\
             _countdown_timer s' = _countdown_timer s /\
             _countdown_start_time s' = _countdown_start_time s /\
             _expected_disconnect s' = _expected_disconnect s).
  { intros r s' E.
    pose proof (turn_off_keeps_rest link fuel _ _ _ E) as Hk.
    unfold countdown_view in Hk. injection Hk as H0 H1 H2 H3 H4. auto. }
  split; [| split; [| split]].
  - intros r s' E. destruct (Hframe r s' E) as (H1 & H2 & H3 & H4 & H5).
    split; [exact H1 |]. split; [exact H2 |]. split; [exact H3 |].
    split; [exact H4 |]. split; [exact H5 |]. intros ->. now apply (turn_off_post link fuel s s').
  - assert (Hruns : runs anywhere (async_turn_off link (S (S fuel))))
      by (unfold async_turn_off; runs_auto; apply send_runs).
    destruct (Hruns s I) as (r & s' & E & _). eauto.
  - apply turn_off_ok.
  - intros r s' E Hcd. destruct (Hframe r s' E) as (Hrem & _ & Hct & _).
    destruct (tick_spec s') as (s'' & Et & Hr & Ht & _).
    rewrite Hrem in Hr. split; [| split].
    + intros Hgt. exists s''. split; [exact Et |].
      assert (Hpos : (0 <? _timer_remaining s) = true) by (apply Z.ltb_lt; lia).
      rewrite Hpos in Hr. split; [exact Hr |].
      rewrite Ht, Hr. apply Z.ltb_lt. lia.
    + intros H1. exists s''. split; [exact Et |].
      rewrite H1 in Hr. cbn in Hr. split; [exact Hr |].
      rewrite Hr in Ht. cbn in Ht. destruct (_countdown_timer s''); [discriminate | reflexivity].
    + intros Hpos data status_byte Hsf.
      rewrite (handler_status_frame _ _ _ _ _ _ Hsf).
      change (be16 0 0) with 0.
      destruct (status_update_changed link status_byte 0 s')
        as (s3 & E3 & _ & Hr3 & _ & _ & Hstop); [right; lia |].
      exists s3. auto.
Qed.

Lemma turn_off_leaves_countdown_witness :
  exists s_off s'' : Coordinator,
    async_turn_off (mkLink true true (fun _ => true) true 0) 2
      (set_countdown_timer
         (Some (mkTimerHandle COUNTDOWN_INTERVAL CallUpdateCountdown false))
         (set_timer_remaining 45
            (set_is_on true (set_client (Some (mkClient true)) init))))
    = Some (Ok tt, s_off) /\
    _update_countdown s_off = Some (Ok tt, s'') /\
    _timer_remaining s'' = 45 - 1 /\
    truthy (_countdown_timer s'') = true.
Proof.
  eexists.
  assert (E : async_turn_off (mkLink true true (fun _ => true) true 0) 2
                (set_countdown_timer
                   (Some (mkTimerHandle COUNTDOWN_INTERVAL CallUpdateCountdown false))
                   (set_timer_remaining 45
                      (set_is_on true (set_client (Some (mkClient true)) init))))
              = Some (Ok tt, _)) by (vm_compute; reflexivity).
  destruct (proj1 (proj2 (proj2 (proj2 (turn_off_leaves_countdown _ _ _)))
                     _ _ E eq_refl) ltac:(cbn; lia)) as (s'' & Et & Hr & Ht).
  exists s''. split; [exact E |]. split; [exact Et |]. split; assumption.
Defined.

(** * Further properties of the code *)

(** ** The set-timer payload for arbitrary durations *)

(** X1: [create_timer_command] keeps only the low 16 bits of
    [minutes * 60]: for every integer [minutes] the payload read back as
    [(high << 8) | low] is [(minutes * 60) mod 65536], so the duration
    survives the encoding exactly when [0 <= minutes <= 1092]. *)
Theorem timer_payload_wraps (minutes : Z) :
  exists (f : list Z) (high low : Z),
    create_timer_command minutes = Ok f /\
    timer_payload f = Some (high, low) /\
    be16 high low = (minutes * 60) mod 65536 /\
    (be16 high low = minutes * 60 <-> 0 <= minutes <= 1092).
Proof.
  rewrite create_timer_command_eq. cbv zeta.
  set (s := minutes * 60).
  exists [0x3A; 0x01; 0x31; 0x00; 0x02; (s / 256) mod 256; s mod 256;
          (0x01 + 0x31 + 0x00 + 0x02 + (s / 256) mod 256 + s mod 256) mod 256;
          0x0A], ((s / 256) mod 256), (s mod 256).
  split; [reflexivity |]. split; [reflexivity |].
  assert (Hbe : be16 ((s / 256) mod 256) (s mod 256) = s mod 65536).
  { rewrite be16_add by (apply Z.mod_pos_bound; lia).
    change 65536 with (256 * 256). rewrite Z.rem_mul_r by lia. lia. }
  split; [exact Hbe |]. rewrite Hbe. split.
  - intros Heq. pose proof (Z.mod_pos_bound s 65536 ltac:(lia)). unfold s in *. lia.
  - intros Hm. apply Z.mod_small. unfold s. lia.
Qed.

(** ** More on the notification handler *)

(** X2: a power acknowledgement of more than 5 bytes touches the power
    flag only: when byte 5 agrees with [is_on] nothing changes, otherwise
    [is_on] is replaced and one notification without a timer value is
    emitted; the remaining time and the countdown are never touched. *)
Theorem power_ack_updates_only_is_on
  (link : Link) (data : list Z) (status_byte : Z) (s : Coordinator) :
  power_frame data status_byte ->
  _notification_handler link data s =
  Some (Ok tt,
        if Bool.eqb (status_byte =? 0x01) (_is_on s) then s
        else set_trace
               (trace s ++ [Updated (mkUpdatedData (status_byte =? 0x01) None)])
               (set_is_on (status_byte =? 0x01) s)).
Proof.
  intros Hframe. rewrite (handler_power_frame _ _ _ _ Hframe).
  unfold power_ack. unfold_monad.
  destruct (Bool.eqb (status_byte =? 1) (_is_on s)); reflexivity.
Qed.

Lemma power_ack_updates_only_is_on_witness :
  _notification_handler (mkLink true true (fun _ => true) true 0)
    [0x2A; 0x00; 0x20; 0x00; 0x01; 0x01; 0x22] init =
  Some (Ok tt,
        if Bool.eqb (0x01 =? 0x01) (_is_on init) then init
        else set_trace
               (trace init ++ [Updated (mkUpdatedData (0x01 =? 0x01) None)])
               (set_is_on (0x01 =? 0x01) init)).
Proof.
  apply (power_ack_updates_only_is_on _ _ 0x01 init).
  unfold power_frame. simpl. repeat split. lia.
Defined.

(** X3: the handler changes the coordinator only on a status response of
    more than 9 bytes or a power acknowledgement of more than 5 bytes; on
    every other input (timer acknowledgements of any length included) it
    returns with the coordinator as it was. *)
Theorem handler_changes_only_on_status_or_power
  (link : Link) (data : list Z) (s : Coordinator) :
  exists s' : Coordinator,
    _notification_handler link data s = Some (Ok tt, s') /\
    (s' = s \/
     (exists status_byte timer_high timer_low : Z,
        status_frame data status_byte timer_high timer_low) \/
     (exists status_byte : Z, power_frame data status_byte)).
Proof.
  unfold status_frame, power_frame.
  split_data data; unfold_handler; cbn;
    repeat (break_if; cbn); eexists; (split; [reflexivity |]);
    try (left; reflexivity);
    eqb_to_prop; subst;
    first [ right; left; do 3 eexists; cbn; repeat split; lia
          | right; right; eexists; cbn; repeat split; lia ].
Qed.

(** X4: no checksum, length field or other byte is looked at: two status
    responses of more than 9 bytes that agree on byte 5 and on bytes 8 and 9
    have the same effect, whatever their other bytes and their lengths; the
    same holds for power acknowledgements that agree on byte 5. *)
Theorem handler_reads_only_selected_bytes
  (link : Link) (data data' : list Z) (s : Coordinator) :
  ((exists status_byte timer_high timer_low : Z,
      status_frame data status_byte timer_high timer_low /\
      status_frame data' status_byte timer_high timer_low) ->
   _notification_handler link data s = _notification_handler link data' s) /\
  ((exists status_byte : Z,
      power_frame data status_byte /\ power_frame data' status_byte) ->
   _notification_handler link data s = _notification_handler link data' s).
Proof.
  split.
  - intros (sb & hi & lo & H & H').
    now rewrite (handler_status_frame _ _ _ _ _ _ H),
                (handler_status_frame _ _ _ _ _ _ H').
  - intros (sb & H & H').
    now rewrite (handler_power_frame _ _ _ _ H), (handler_power_frame _ _ _ _ H').
Qed.

Lemma handler_reads_only_selected_bytes_witness :
  _notification_handler (mkLink true true (fun _ => true) true 0)
    [0x2A; 0x00; 0x10; 0x00; 0x00; 0x01; 0x00; 0x0F; 0x00; 0x2D] init =
  _notification_handler (mkLink true true (fun _ => true) true 0)
    [0x2A; 0x07; 0x10; 0xFF; 0x09; 0x01; 0x12; 0x34; 0x00; 0x2D; 0xEE; 0x0A] init.
Proof.
  apply (proj1 (handler_reads_only_selected_bytes _ _ _ _)).
  exists 0x01, 0x00, 0x2D. unfold status_frame. simpl. repeat split; lia.
Defined.

(** X5: a status response that arrives while a countdown is running and
    reports a positive remaining time replaces the remaining time and keeps
    the countdown handle and its start time (no second countdown is
    started); the next tick counts down from the new value. *)
Theorem status_during_countdown_adopts_value
  (link : Link) (data : list Z) (status_byte timer_high timer_low : Z)
  (s : Coordinator) :
  status_frame data status_byte timer_high timer_low ->
  truthy (_countdown_timer s) = true ->
  0 < be16 timer_high timer_low ->
  exists s' s'' : Coordinator,
    _notification_handler link data s = Some (Ok tt, s') /\
    _timer_remaining s' = be16 timer_high timer_low /\
    _is_on s' = (status_byte =? 0x01) /\
    _countdown_timer s' = _countdown_timer s /\
    _countdown_start_time s' = _countdown_start_time s /\
    _update_countdown s' = Some (Ok tt, s'') /\
    _timer_remaining s'' = be16 timer_high timer_low - 1.
Proof.
  intros Hframe Hcd Hpos.
  rewrite (handler_status_frame _ _ _ _ _ _ Hframe).
  set (secs := be16 timer_high timer_low) in *.
  assert (Hrun : exists s' : Coordinator,
             status_update link status_byte secs s = Some (Ok tt, s') /\
             _timer_remaining s' = secs /\ _is_on s' = (status_byte =? 0x01) /\
             _countdown_timer s' = _countdown_timer s /\
             _countdown_start_time s' = _countdown_start_time s).
  { destruct (_countdown_timer s) as [h |] eqn:Hh; [| discriminate].
    assert (Hp : (0 <? secs) = true) by now apply Z.ltb_lt.
    assert (Hz : (secs =? 0) = false) by (apply Z.eqb_neq; lia).
    unfold status_update, _start_countdown, _stop_countdown. unfold_monad.
    destruct (negb (Bool.eqb (status_byte =? 1) (_is_on s))
              || negb (secs =? _timer_remaining s)) eqn:Hchg.
    - cbn. rewrite Hh, Hp, Hz. cbn.
      eexists. split; [reflexivity |]. cbn. auto.
    - eexists. split; [reflexivity |]. eqb_to_prop. auto. }
  destruct Hrun as (s' & E & Hrem & Hon & Hct & Hcs).
  destruct (tick_spec s') as (s'' & Et & Hr & _).
  exists s', s''. repeat split; try assumption.
  rewrite Hr, Hrem.
  assert (Hp : (0 <? secs) = true) by now apply Z.ltb_lt.
  now rewrite Hp.
Qed.

Lemma status_during_countdown_adopts_value_witness :
  exists s' s'' : Coordinator,
    _notification_handler (mkLink true true (fun _ => true) true 0)
      [0x2A; 0x00; 0x10; 0x00; 0x00; 0x01; 0x00; 0x0F; 0x00; 0x1E]
      (set_countdown_timer
         (Some (mkTimerHandle COUNTDOWN_INTERVAL CallUpdateCountdown false))
         (set_timer_remaining 5 (set_is_on true init)))
    = Some (Ok tt, s') /\
    _timer_remaining s' = be16 0x00 0x1E /\
    _is_on s' = (0x01 =? 0x01) /\
    _countdown_timer s' =
    _countdown_timer
      (set_countdown_timer
         (Some (mkTimerHandle COUNTDOWN_INTERVAL CallUpdateCountdown false))
         (set_timer_remaining 5 (set_is_on true init))) /\
    _countdown_start_time s' =
    _countdown_start_time
      (set_countdown_timer
         (Some (mkTimerHandle COUNTDOWN_INTERVAL CallUpdateCountdown false))
         (set_timer_remaining 5 (set_is_on true init))) /\
    _update_countdown s' = Some (Ok tt, s'') /\
    _timer_remaining s'' = be16 0x00 0x1E - 1.
Proof.
  apply (status_during_countdown_adopts_value _ _ 0x01 0x00 0x1E).
  - unfold status_frame. simpl. repeat split; lia.
  - reflexivity.
  - vm_compute. reflexivity.
Defined.

(** ** The countdown over whole runs *)

Lemma handler_consistent (link : Link) (data : list Z) (s s' : Coordinator)
  (r : result unit) :
  byte_data data -> countdown_consistent s ->
  _notification_handler link data s = Some (r, s') ->
  countdown_consistent s'.
Proof.
  unfold countdown_consistent. intros Hb [Hrange Hcd] H.
  split_data data;
    try (pose proof (byte_data_nth _ 8%nat _ Hb eq_refl) as Hhi;
         pose proof (byte_data_nth _ 9%nat _ Hb eq_refl) as Hlo);
    unfold_handler; cbn in H;
    repeat (break_if_in H; cbn in H);
    injection H as _ <-; cbn; try (split; assumption);
    repeat match goal with
           | H : _ && _ = false |- _ => apply andb_false_iff in H; destruct H
           end;
    eqb_to_prop;
    repeat match goal with
           | H : truthy (_countdown_timer ?x) = _ |- _ =>
               destruct (_countdown_timer x); cbn in *; try discriminate
           end;
    cbn; rewrite (be16_add _ _ Hlo) in *; (split; [lia |]); symmetry;
    first [ apply Z.ltb_lt; lia | apply Z.ltb_ge; lia ].
Qed.

Lemma perform_consistent
  (link : Link) (fuel : nat) (op : operation) (s s' : Coordinator)
  (r : result unit) :
  well_formed op -> countdown_consistent s ->
  perform link fuel op s = Some (r, s') -> countdown_consistent s'.
Proof.
  intros Hwf Hs Hrun.
  assert (Hkeep : forall m : M unit,
             keeps countdown_view m -> m s = Some (r, s') ->
             countdown_consistent s').
  { intros m Hm E. pose proof (Hm _ _ _ E) as Hv.
    unfold countdown_view in Hv. injection Hv as H1 H2 _ _.
    unfold countdown_consistent in *. now rewrite H1, H2. }
  destruct op as [| | | data | | [] | | | | | minutes]; cbn [perform] in Hrun.
  - revert Hrun. apply Hkeep. unfold async_connect.
    apply connect_with_keeps_countdown. intros c. apply send_keeps_session.
  - revert Hrun. apply Hkeep, disconnect_keeps_countdown.
  - revert Hrun. apply Hkeep, disconnected_keeps_countdown.
  - exact (handler_consistent _ _ _ _ _ Hwf Hs Hrun).
  - destruct (tick_spec s) as (s1 & E & Hrem & Hcd & _).
    rewrite E in Hrun. injection Hrun as _ <-.
    destruct Hs as [Hrange _]. split; [| exact Hcd].
    rewrite Hrem. destruct (Z.ltb_spec 0 (_timer_remaining s)); lia.
  - revert Hrun. apply Hkeep, query_and_disconnect_keeps_countdown.
  - revert Hrun. apply Hkeep, turn_on_keeps_countdown.
  - revert Hrun. apply Hkeep, turn_off_keeps_countdown.
  - revert Hrun. apply Hkeep. unfold _auto_turn_off. keeps_auto.
    apply turn_off_keeps_countdown.
  - revert Hrun. apply Hkeep. unfold _query_status. apply send_keeps_countdown.
  - unfold set_timer_duration, modify in Hrun. injection Hrun as _ <-. exact Hs.
Qed.

(** X6: in every state the coordinator can reach from its initial state
    by connects, disconnects, notifications made of bytes, ticks, tasks and
    commands, in any order and whether or not they raise, the remaining time
    lies in [0, 65535] and a countdown handle is scheduled exactly when the
    remaining time is positive. *)
Theorem reachable_states_countdown_consistent
  (link : Link) (fuel : nat) (ops : list operation) (s0 s : Coordinator) :
  Forall well_formed ops ->
  countdown_consistent s0 ->
  perform_all link fuel ops s0 = Some s ->
  countdown_consistent s /\ countdown_consistent init.
Proof.
  intros Hops Hs0 Hrun. split; [| split; [cbn; lia | reflexivity]].
  revert s0 Hs0 Hrun.
  induction Hops as [| op rest Hop Hrest IH]; intros s0 Hs0 Hrun; cbn in Hrun.
  - injection Hrun as <-. exact Hs0.
  - destruct (perform link fuel op s0) as [[r s1] |] eqn:E; [| discriminate].
    apply (IH s1); [| exact Hrun].
    exact (perform_consistent _ _ _ _ _ _ Hop Hs0 E).
Qed.

Lemma reachable_states_countdown_consistent_witness :
  countdown_consistent
    (set_trace
       [Updated (mkUpdatedData true (Some 45));
        Updated (mkUpdatedData true (Some 44))]
       (set_countdown_timer
          (Some (mkTimerHandle COUNTDOWN_INTERVAL CallUpdateCountdown false))
          (set_countdown_start_time (Some 0)
             (set_timer_remaining 44 (set_is_on true init))))) /\
  countdown_consistent init.
Proof.
  apply (reachable_states_countdown_consistent
           (mkLink true true (fun _ => true) true 0) 2
           [Notification [0x2A; 0x00; 0x10; 0x00; 0x00; 0x01; 0x00; 0x0F; 0x00; 0x2D];
            Tick]
           init).
  - repeat constructor; lia.
  - split; [cbn; lia | reflexivity].
  - reflexivity.
Defined.

Lemma tick_positive (s : Coordinator) :
  0 < _timer_remaining s ->
  _update_countdown s =
  Some (Ok tt,
        let s1 :=
          set_trace
            (trace s ++
             [Updated (mkUpdatedData (_is_on s) (Some (_timer_remaining s - 1)))])
            (set_timer_remaining (_timer_remaining s - 1) s) in
        if 0 <? _timer_remaining s - 1
        then set_countdown_timer
               (Some (mkTimerHandle COUNTDOWN_INTERVAL CallUpdateCountdown false)) s1
        else set_trace (trace s1 ++ [TaskCreated QueryAndDisconnect])
               (set_countdown_timer None s1)).
Proof.
  intros Hpos. apply Z.ltb_lt in Hpos.
  unfold _update_countdown. unfold_monad. rewrite Hpos. cbn.
  destruct (0 <? _timer_remaining s - 1); reflexivity.
Qed.

Lemma run_countdown_stopped (n : nat) (s : Coordinator) :
  _countdown_timer s = None -> run_countdown n s = ([], s).
Proof. intros H. destruct n; cbn; [| rewrite H]; reflexivity. Qed.

(** X7: a countdown that is scheduled with [k + 1] seconds remaining, and
    is left alone, shows [k, k - 1, ..., 0], emits one notification per
    tick, and stops by itself at 0, where it clears its handle and creates
    exactly one query-and-disconnect task. *)
Theorem countdown_runs_down (k n : nat) (s : Coordinator) :
  truthy (_countdown_timer s) = true ->
  _timer_remaining s = Z.of_nat (S k) ->
  (k < n)%nat ->
  exists s' : Coordinator,
    run_countdown n s = (count_down_from (S k), s') /\
    _timer_remaining s' = 0 /\
    _countdown_timer s' = None /\
    _is_on s' = _is_on s /\
    trace s' =
    trace s ++
      map (fun v => Updated (mkUpdatedData (_is_on s) (Some v)))
          (count_down_from (S k))
      ++ [TaskCreated QueryAndDisconnect].
Proof.
  revert n s. induction k as [| k IH]; intros n s Hcd Hrem Hn;
    (destruct n as [| n]; [lia |]);
    cbn [run_countdown]; rewrite Hcd;
    rewrite tick_positive by lia; cbv zeta; rewrite Hrem.
  - change (Z.of_nat 1 - 1) with 0. cbn [Z.ltb Z.compare].
    rewrite run_countdown_stopped by reflexivity.
    eexists. split; [reflexivity |]. cbn. rewrite <- app_assoc.
    repeat split.
  - replace (Z.of_nat (S (S k)) - 1) with (Z.of_nat (S k)) by lia.
    assert (Hp : (0 <? Z.of_nat (S k)) = true) by (apply Z.ltb_lt; lia).
    rewrite Hp.
    match goal with
    | |- context [run_countdown n ?s1] =>
        destruct (IH n s1 eq_refl eq_refl ltac:(lia))
          as (s' & E & Hr & Hc & Hon & Htr)
    end.
    rewrite E. exists s'. split; [reflexivity |].
    split; [exact Hr |]. split; [exact Hc |]. split; [exact Hon |].
    rewrite Htr. cbn [trace set_trace set_countdown_timer set_timer_remaining _is_on].
    rewrite <- app_assoc. reflexivity.
Qed.

Lemma countdown_runs_down_witness :
  exists s' : Coordinator,
    run_countdown 10
      (set_countdown_timer
         (Some (mkTimerHandle COUNTDOWN_INTERVAL CallUpdateCountdown false))
         (set_timer_remaining 3 init))
    = (count_down_from 3, s') /\
    _timer_remaining s' = 0 /\
    _countdown_timer s' = None /\
    _is_on s' = false /\
    trace s' =
    [] ++ map (fun v => Updated (mkUpdatedData false (Some v))) (count_down_from 3)
       ++ [TaskCreated QueryAndDisconnect].
Proof.
  apply (countdown_runs_down 2 10
           (set_countdown_timer
              (Some (mkTimerHandle COUNTDOWN_INTERVAL CallUpdateCountdown false))
              (set_timer_remaining 3 init))).
  - reflexivity.
  - reflexivity.
  - lia.
Defined.

(** ** Sends that fail, sends that succeed *)

Lemma send_tail_ok_at (link : Link) (command : list Z) (s : Coordinator) :
  client_connected s = true ->
  write_ok link (write_calls s) = true ->
  send_tail link command s = Some (Ok tt, sent command s).
Proof.
  intros Hc Hw. destruct s as [cl dt on ex ao td tr ct cs tc wc].
  unfold client_connected in Hc. cbn in Hc, Hw.
  destruct cl as [[[|]] |]; try discriminate.
  unfold send_tail, write_gatt_char, sent. unfold_monad.
  destruct dt, ct; cbn; rewrite Hw; cbn; rewrite <- app_assoc; reflexivity.
Qed.

Lemma send_tail_fail (link : Link) (command : list Z) (s : Coordinator) :
  client_connected s = true ->
  write_ok link (write_calls s) = false ->
  send_tail link command s = Some (Raise UpdateFailed, unsent s).
Proof.
  intros Hc Hw. destruct s as [cl dt on ex ao td tr ct cs tc wc].
  unfold client_connected in Hc. cbn in Hc, Hw.
  destruct cl as [[[|]] |]; try discriminate.
  unfold send_tail, write_gatt_char, unsent. unfold_monad.
  destruct dt; cbn; rewrite Hw; reflexivity.
Qed.

Lemma send_connected (link : Link) (fuel : nat) (command : list Z) (s : Coordinator) :
  client_connected s = true ->
  _send_command link (S fuel) command s = send_tail link command s.
Proof.
  intros Hc. rewrite send_unfold. unfold bind at 1. unfold get.
  rewrite Hc. reflexivity.
Qed.

Lemma bind_raise {A B : Type} (m : M A) (k : A -> M B) (s s' : Coordinator)
  (e : exn) :
  m s = Some (Raise e, s') -> bind m k s = Some (Raise e, s').
Proof. intros H. unfold bind. rewrite H. reflexivity. Qed.

Lemma client_connected_unsent (s : Coordinator) :
  client_connected (unsent s) = client_connected s.
Proof. reflexivity. Qed.

Lemma session_view_sent (command : list Z) (s : Coordinator) :
  session_view (sent command s) = session_view s.
Proof. unfold sent. destruct (truthy (_countdown_timer s)); reflexivity. Qed.

Lemma write_calls_sent (command : list Z) (s : Coordinator) :
  write_calls (sent command s) = S (write_calls s).
Proof. unfold sent. destruct (truthy (_countdown_timer s)); reflexivity. Qed.

(** X8: a write that fails on an open connection makes [_send_command]
    raise [UpdateFailed]; nothing is recorded as written, the session state
    is untouched, and the idle-disconnect handle that was pending is left
    cancelled: no live idle-disconnect remains after a failed send. *)
Theorem send_failure_leaves_no_idle_disconnect
  (link : Link) (fuel : nat) (command : list Z) (s : Coordinator) :
  client_connected s = true ->
  write_ok link (write_calls s) = false ->
  exists s' : Coordinator,
    _send_command link (S fuel) command s = Some (Raise UpdateFailed, s') /\
    trace s' = trace s /\
    session_view s' = session_view s /\
    client_connected s' = true /\
    _disconnect_timer s' = option_map cancel (_disconnect_timer s) /\
    (forall h : TimerHandle, _disconnect_timer s' = Some h -> cancelled h = true).
Proof.
  intros Hc Hw. exists (unsent s).
  rewrite send_connected by exact Hc.
  split; [now apply send_tail_fail |].
  repeat split; try exact Hc.
  cbn. intros h Hh. destruct (_disconnect_timer s); cbn in Hh; [| discriminate].
  injection Hh as <-. reflexivity.
Qed.

Lemma send_failure_leaves_no_idle_disconnect_witness :
  exists s' : Coordinator,
    _send_command (mkLink true true (fun _ => false) true 0) 1 TURN_ON_CMD
      (set_disconnect_timer
         (Some (mkTimerHandle DISCONNECT_DELAY CreateDisconnectTask false))
         (set_client (Some (mkClient true)) init))
    = Some (Raise UpdateFailed, s') /\
    trace s' = [] /\
    session_view s' = session_view init /\
    client_connected s' = true /\
    _disconnect_timer s' =
    option_map cancel
      (Some (mkTimerHandle DISCONNECT_DELAY CreateDisconnectTask false)) /\
    (forall h : TimerHandle, _disconnect_timer s' = Some h -> cancelled h = true).
Proof.
  apply (send_failure_leaves_no_idle_disconnect
           (mkLink true true (fun _ => false) true 0) 0 TURN_ON_CMD
           (set_disconnect_timer
              (Some (mkTimerHandle DISCONNECT_DELAY CreateDisconnectTask false))
              (set_client (Some (mkClient true)) init)));
    reflexivity.
Defined.

(** X9: a successful [_send_command] on an open connection writes the
    frame, sleeps 500 ms and leaves the session state alone; it arms a fresh
    120-second idle-disconnect when no countdown is active, and while a
    countdown is active it arms nothing (the handle that was pending stays
    cancelled). *)
Theorem send_arms_idle_disconnect_unless_counting
  (link : Link) (fuel : nat) (command : list Z) (s : Coordinator) :
  client_connected s = true ->
  write_ok link (write_calls s) = true ->
  exists s' : Coordinator,
    _send_command link (S fuel) command s = Some (Ok tt, s') /\
    trace s' = trace s ++ [Wrote command; Slept 500] /\
    session_view s' = session_view s /\
    (truthy (_countdown_timer s) = false ->
     _disconnect_timer s' =
     Some (mkTimerHandle DISCONNECT_DELAY CreateDisconnectTask false)) /\
    (truthy (_countdown_timer s) = true ->
     _disconnect_timer s' = option_map cancel (_disconnect_timer s)).
Proof.
  intros Hc Hw. exists (sent command s).
  rewrite send_connected by exact Hc.
  split; [now apply send_tail_ok_at |].
  split; [apply trace_sent |]. split; [apply session_view_sent |].
  unfold sent. split; intros Hcd; rewrite Hcd; reflexivity.
Qed.

Lemma send_arms_idle_disconnect_unless_counting_witness :
  exists s' : Coordinator,
    _send_command (mkLink true true (fun _ => true) true 0) 1 TURN_OFF_CMD
      (set_client (Some (mkClient true)) init)
    = Some (Ok tt, s') /\
    trace s' = [] ++ [Wrote TURN_OFF_CMD; Slept 500] /\
    session_view s' = session_view init /\
    (truthy (_countdown_timer init) = false ->
     _disconnect_timer s' =
     Some (mkTimerHandle DISCONNECT_DELAY CreateDisconnectTask false)) /\
    (truthy (_countdown_timer init) = true ->
     _disconnect_timer s' = option_map cancel (_disconnect_timer init)).
Proof.
  apply (send_arms_idle_disconnect_unless_counting
           (mkLink true true (fun _ => true) true 0) 0 TURN_OFF_CMD
           (set_client (Some (mkClient true)) init));
    reflexivity.
Defined.

(** ** Connecting *)

Lemma connect_opens (link : Link) (send : list Z -> M unit) (s : Coordinator) :
  client_connected s = false ->
  establish_ok link = true -> start_notify_ok link = true ->
  async_connect_with link send s = status_retry send (range 5) (opened s).
Proof.
  intros Hc He Hn.
  unfold async_connect_with, establish_connection, start_notify.
  unfold bind at 1. unfold get. rewrite Hc, He, Hn.
  unfold_monad. cbv beta iota.
  replace (set_trace _ (set_trace _ (set_trace _ (set_client _ s))))
    with (opened s)
    by (unfold opened; destruct s; cbn; rewrite <- !app_assoc; reflexivity).
  reflexivity.
Qed.

Lemma status_retry_failed_attempt
  (send : list Z -> M unit) (attempt : Z) (rest : list Z) (s s1 : Coordinator)
  (e : exn) :
  send STATUS_QUERY_CMD s = Some (Raise e, s1) ->
  status_retry send (attempt :: rest) s =
  status_retry send rest
    (if attempt <? 2 then set_trace (trace s1 ++ [Slept 1000]) s1 else s1).
Proof.
  intros H. cbn [status_retry]. unfold try_except, bind at 1.
  unfold bind at 1. rewrite H.
  destruct (attempt <? 2); reflexivity.
Qed.

(** X10: when the transport opens but every status query fails,
    [async_connect] still returns normally with the session open: it has
    made exactly five write attempts, sleeping 1 s before the first and after
    each of the first two failures only, and it has changed nothing of the
    session state. *)
Theorem connect_survives_failed_status_queries
  (link : Link) (fuel : nat) (s : Coordinator) :
  client_connected s = false ->
  establish_ok link = true -> start_notify_ok link = true ->
  (forall n : nat, write_ok link n = false) ->
  exists s' : Coordinator,
    async_connect link (S fuel) s = Some (Ok tt, s') /\
    client_connected s' = true /\
    write_calls s' = (write_calls s + 5)%nat /\
    trace s' =
    trace s ++ [Established; NotifyStarted; Slept 1000; Slept 1000; Slept 1000] /\
    session_view s' = session_view s.
Proof.
  intros Hc He Hn Hw. unfold async_connect.
  rewrite connect_opens by assumption.
  assert (Hfail : forall t : Coordinator,
             client_connected t = true ->
             _send_command link (S fuel) STATUS_QUERY_CMD t =
             Some (Raise UpdateFailed, unsent t)).
  { intros t Ht. rewrite send_connected by exact Ht.
    apply send_tail_fail; [exact Ht | apply Hw]. }
  cbn [range seq map].
  do 5 (erewrite status_retry_failed_attempt by (apply Hfail; reflexivity);
        cbn [Z.of_nat Pos.of_succ_nat Pos.succ Z.ltb Z.compare Pos.compare
             Pos.compare_cont]).
  cbn [status_retry]. eexists. split; [reflexivity |].
  destruct s as [cl dt on ex ao td tr ct cs tc wc]. cbn.
  split; [reflexivity |]. split; [lia |].
  split; [rewrite <- !app_assoc; reflexivity | reflexivity].
Qed.

Lemma connect_survives_failed_status_queries_witness :
  exists s' : Coordinator,
    async_connect (mkLink true true (fun _ => false) true 0) 1 init
    = Some (Ok tt, s') /\
    client_connected s' = true /\
    write_calls s' = (write_calls init + 5)%nat /\
    trace s' =
    trace init ++ [Established; NotifyStarted; Slept 1000; Slept 1000; Slept 1000] /\
    session_view s' = session_view init.
Proof.
  apply (connect_survives_failed_status_queries
           (mkLink true true (fun _ => false) true 0) 0 init);
    reflexivity.
Defined.

(** X11: [async_connect] on a closed session raises [BleakError] when the
    transport cannot be opened, leaving the coordinator as it was.  When the
    transport opens but subscribing to notifications fails it raises too, yet
    the client it obtained stays stored and connected: a second
    [async_connect] is then a no-op and a later [_send_command] writes
    without reconnecting, so notifications are not enabled for that
    session. *)
Theorem connect_failure_modes
  (link : Link) (fuel : nat) (command : list Z) (s : Coordinator) :
  client_connected s = false ->
  (establish_ok link = false ->
   async_connect link fuel s = Some (Raise BleakError, s)) /\
  (establish_ok link = true -> start_notify_ok link = false ->
   exists s1 : Coordinator,
     async_connect link fuel s = Some (Raise BleakError, s1) /\
     client_connected s1 = true /\
     trace s1 = trace s ++ [Established] /\
     async_connect link fuel s1 = Some (Ok tt, s1) /\
     (write_ok link (write_calls s1) = true ->
      exists s2 : Coordinator,
        _send_command link (S fuel) command s1 = Some (Ok tt, s2) /\
        trace s2 = trace s ++ [Established; Wrote command; Slept 500])).
Proof.
  intros Hc. split.
  - intros He.
    unfold async_connect, async_connect_with, establish_connection.
    unfold_monad. rewrite Hc, He. reflexivity.
  - intros He Hn.
    exists (set_trace (trace s ++ [Established])
              (set_client (Some (mkClient true)) s)).
    split.
    { unfold async_connect, async_connect_with, establish_connection,
        start_notify.
      unfold_monad. rewrite Hc, He, Hn. reflexivity. }
    split; [reflexivity |]. split; [reflexivity |]. split; [reflexivity |].
    intros Hw. eexists.
    rewrite send_connected by reflexivity.
    split; [apply send_tail_ok_at; [reflexivity | exact Hw] |].
    rewrite trace_sent. cbn. rewrite <- app_assoc. reflexivity.
Qed.

Lemma connect_failure_modes_witness :
  async_connect (mkLink false true (fun _ => true) true 0) 2 init
  = Some (Raise BleakError, init).
Proof.
  apply (proj1 (connect_failure_modes
                  (mkLink false true (fun _ => true) true 0) 2 TURN_ON_CMD init
                  eq_refl)).
  reflexivity.
Defined.

(** ** The task created when the countdown expires *)

Lemma disconnect_effect (link : Link) (s : Coordinator) :
  exists s1 : Coordinator,
    async_disconnect link s = Some (Ok tt, s1) /\
    frames (trace s1) = frames (trace s) /\
    (truthy (_countdown_timer s) = true -> s1 = s) /\
    (truthy (_countdown_timer s) = false ->
     client_connected s1 = false /\ _disconnect_timer s1 = None).
Proof.
  destruct s as [cl dt on ex ao td tr ct cs tc wc].
  unfold_disconnect. cbn.
  destruct ct, cl as [[[|]] |], dt, ao, (disconnect_runs_callback link); cbn;
    eexists; (split; [reflexivity |]); cbn; rewrite ?frames_app; cbn;
    rewrite ?app_nil_r; repeat split; intros; discriminate.
Qed.

Lemma try_ok {A : Type} (m : M A) (h : exn -> M A) (s s' : Coordinator) (a : A) :
  m s = Some (Ok a, s') -> try_except m h s = Some (Ok a, s').
Proof. intros H. unfold try_except. rewrite H. reflexivity. Qed.

Lemma countdown_timer_sent (command : list Z) (s : Coordinator) :
  _countdown_timer (sent command s) = _countdown_timer s.
Proof. unfold sent. destruct (truthy (_countdown_timer s)); reflexivity. Qed.

Lemma query_and_disconnect_keeps_is_on (link : Link) (fuel : nat) :
  keeps (fun s => (_is_on s, countdown_view s)) (query_and_disconnect link fuel).
Proof.
  unfold query_and_disconnect, _query_status, async_disconnect,
    client_disconnect, _disconnected.
  keeps_auto.
  exact (keeps_weaken session_view (fun v => (fst (fst (fst v)), snd v)) _
           (send_keeps_session link fuel STATUS_QUERY_CMD)).
Qed.

(** X12: the query-and-disconnect task never raises: whatever the
    transport does, it returns normally and leaves the power flag, the
    remaining time and the countdown as they were.  On an open connection
    with working writes it sends one status query, waits, and then closes the
    session (leaving no idle-disconnect handle) unless a countdown is active,
    in which case the session stays open. *)
Theorem query_and_disconnect_never_raises
  (link : Link) (fuel : nat) (s : Coordinator) :
  (exists s' : Coordinator,
     query_and_disconnect link (S (S fuel)) s = Some (Ok tt, s') /\
     _is_on s' = _is_on s /\ countdown_view s' = countdown_view s) /\
  (client_connected s = true -> write_ok link (write_calls s) = true ->
   exists s' : Coordinator,
     query_and_disconnect link (S (S fuel)) s = Some (Ok tt, s') /\
     frames (trace s') = frames (trace s) ++ [STATUS_QUERY_CMD] /\
     (truthy (_countdown_timer s) = false ->
      client_connected s' = false /\ _disconnect_timer s' = None) /\
     (truthy (_countdown_timer s) = true -> client_connected s' = true)).
Proof.
  split.
  - assert (Hruns : runs anywhere
              (_query_status link (S (S fuel)) ;; sleep 1000 ;; async_disconnect link))
      by (unfold _query_status; runs_auto;
          first [apply send_runs | apply disconnect_runs]).
    destruct (Hruns s I) as (r & s1 & E & _).
    assert (Hq : exists s' : Coordinator,
               query_and_disconnect link (S (S fuel)) s = Some (Ok tt, s')).
    { unfold query_and_disconnect, try_except. rewrite E.
      destruct r as [[] | e]; eexists; reflexivity. }
    destruct Hq as (s' & Hq). exists s'. split; [exact Hq |].
    pose proof (query_and_disconnect_keeps_is_on link _ _ _ _ Hq) as Hk.
    split; [exact (f_equal fst Hk) | exact (f_equal snd Hk)].
  - intros Hc Hw.
    set (s1 := set_trace (trace (sent STATUS_QUERY_CMD s) ++ [Slept 1000])
                 (sent STATUS_QUERY_CMD s)).
    destruct (disconnect_effect link s1) as (s2 & Ed & Hfr & Hkeep & Hclose).
    exists s2. split.
    { unfold query_and_disconnect. apply try_ok.
      unfold _query_status, sleep.
      erewrite bind_ok
        by (rewrite send_connected by exact Hc; now apply send_tail_ok_at).
      rewrite bind_emit. exact Ed. }
    assert (Hcd1 : _countdown_timer s1 = _countdown_timer s)
      by (unfold s1; cbn; apply countdown_timer_sent).
    split.
    { rewrite Hfr. unfold s1. cbn [trace set_trace].
      rewrite trace_sent, !frames_app. cbn. now rewrite app_nil_r. }
    split; intros Hcd.
    + apply Hclose. now rewrite Hcd1.
    + rewrite (Hkeep ltac:(now rewrite Hcd1)). unfold s1.
      rewrite client_connected_set_trace, client_connected_sent. exact Hc.
Qed.

Lemma query_and_disconnect_never_raises_witness :
  exists s' : Coordinator,
    query_and_disconnect (mkLink true true (fun _ => true) true 0) 2
      (set_client (Some (mkClient true)) init) = Some (Ok tt, s') /\
    frames (trace s') = [] ++ [STATUS_QUERY_CMD] /\
    (truthy (_countdown_timer init) = false ->
     client_connected s' = false /\ _disconnect_timer s' = None) /\
    (truthy (_countdown_timer init) = true -> client_connected s' = true).
Proof.
  apply (proj2 (query_and_disconnect_never_raises
                  (mkLink true true (fun _ => true) true 0) 0
                  (set_client (Some (mkClient true)) init)));
    reflexivity.
Defined.

(** ** Commands that fail half-way *)

(** X13: when the first write of [async_turn_on] fails on an open
    connection, the call raises [UpdateFailed] with [is_on] and the trace
    unchanged: nothing was written and no notification emitted.  When the
    set-timer and power-on writes succeed and the final status query fails,
    the call raises [UpdateFailed] as well, but [is_on] is already [True],
    its notification has been emitted, and the auto-off handle has not been
    cleared. *)
Theorem turn_on_failure_modes (link : Link) (fuel : nat) (s : Coordinator) :
  client_connected s = true ->
  (write_ok link (write_calls s) = false ->
   exists s' : Coordinator,
     async_turn_on link (S fuel) s = Some (Raise UpdateFailed, s') /\
     _is_on s' = _is_on s /\ trace s' = trace s) /\
  (0 < _timer_duration s ->
   write_ok link (write_calls s) = true ->
   write_ok link (S (write_calls s)) = true ->
   write_ok link (S (S (write_calls s))) = false ->
   exists (timer_cmd : list Z) (s' : Coordinator),
     create_timer_command (_timer_duration s) = Ok timer_cmd /\
     async_turn_on link (S fuel) s = Some (Raise UpdateFailed, s') /\
     _is_on s' = true /\
     trace s' =
     trace s ++ [Wrote timer_cmd; Slept 500; Slept 200; Wrote TURN_ON_CMD;
                 Slept 500; Slept 500; Updated (mkUpdatedData true None)] /\
     _auto_off_timer s' = _auto_off_timer s).
Proof.
  intros Hc. split.
  - intros Hw.
    assert (Hfail : forall command : list Z,
               _send_command link (S fuel) command s =
               Some (Raise UpdateFailed, unsent s)).
    { intros command. rewrite send_connected by exact Hc.
      now apply send_tail_fail. }
    exists (unsent s). split; [| split; reflexivity].
    unfold async_turn_on. rewrite bind_get.
    pose proof (create_timer_command_eq (_timer_duration s)) as Hcmd.
    cbv zeta in Hcmd.
    destruct (0 <? _timer_duration s).
    + rewrite Hcmd. repeat first [rewrite bind_assoc | rewrite bind_lift_ok].
      apply bind_raise. apply Hfail.
    + apply bind_raise. apply Hfail.
  - intros Hdur Hw0 Hw1 Hw2. apply Z.ltb_lt in Hdur.
    pose proof (create_timer_command_eq (_timer_duration s)) as Hcmd.
    cbv zeta in Hcmd.
    match type of Hcmd with _ = Ok ?c => set (cmd := c) in * end.
    exists cmd. eexists. split; [exact Hcmd |]. split.
    { unfold async_turn_on, _query_status, sleep, async_set_updated_data.
      rewrite bind_get, Hdur, Hcmd.
      repeat first [rewrite bind_assoc | rewrite bind_lift_ok].
      erewrite bind_ok
        by (rewrite send_connected by exact Hc; now apply send_tail_ok_at).
      cbv beta. rewrite !bind_assoc, bind_emit.
      erewrite bind_ok
        by (rewrite send_connected
              by (rewrite client_connected_set_trace, client_connected_sent;
                  exact Hc);
            apply send_tail_ok_at;
            [ rewrite client_connected_set_trace, client_connected_sent;
              exact Hc
            | cbn [write_calls set_trace]; rewrite write_calls_sent;
              exact Hw1 ]).
      cbv beta. rewrite ?bind_assoc, bind_emit, bind_modify, bind_emit, bind_get.
      cbn [_timer_duration set_trace set_is_on].
      rewrite timer_duration_sent. cbn [_timer_duration set_trace].
      rewrite timer_duration_sent, Hdur. cbn [when].
      apply bind_raise.
      rewrite send_connected
        by (rewrite client_connected_set_trace, client_connected_set_is_on,
              client_connected_set_trace, client_connected_sent,
              client_connected_set_trace, client_connected_sent;
            exact Hc).
      apply send_tail_fail.
      - rewrite client_connected_set_trace, client_connected_set_is_on,
          client_connected_set_trace, client_connected_sent,
          client_connected_set_trace, client_connected_sent.
        exact Hc.
      - cbn [write_calls set_trace set_is_on]. rewrite write_calls_sent.
        cbn [write_calls set_trace]. rewrite write_calls_sent. exact Hw2. }
    unfold unsent.
    cbn [_is_on trace _auto_off_timer set_write_calls set_disconnect_timer
         set_trace set_is_on].
    split; [reflexivity |]. split.
    { rewrite trace_sent. cbn [trace set_trace]. rewrite trace_sent.
      rewrite <- !app_assoc. reflexivity. }
    rewrite auto_off_timer_sent. cbn [_auto_off_timer set_trace].
    apply auto_off_timer_sent.
Qed.

Lemma turn_on_failure_modes_witness :
  exists s' : Coordinator,
    async_turn_on (mkLink true true (fun _ => false) true 0) 1
      (set_client (Some (mkClient true)) init)
    = Some (Raise UpdateFailed, s') /\
    _is_on s' = _is_on init /\ trace s' = trace init.
Proof.
  apply (proj1 (turn_on_failure_modes
                  (mkLink true true (fun _ => false) true 0) 0
                  (set_client (Some (mkClient true)) init) eq_refl)).
  reflexivity.
Defined.

(** ** Losing the link *)

(** X14: when the transport drops the link, the callback clears the
    client and the expected-disconnect flag, logs the disconnect as expected
    or unexpected according to the flag, and leaves the power flag, the
    remaining time and the countdown alone (a running countdown keeps
    running); the next [_send_command] reconnects first, sending a status
    query of its own before the frame it was asked to send. *)
Theorem send_after_link_loss_reconnects
  (link : Link) (fuel : nat) (command : list Z) (s : Coordinator) :
  (forall n : nat, write_ok link n = true) ->
  establish_ok link = true -> start_notify_ok link = true ->
  exists s1 s2 : Coordinator,
    _disconnected s = Some (Ok tt, s1) /\
    _client s1 = None /\ _expected_disconnect s1 = false /\
    _is_on s1 = _is_on s /\ countdown_view s1 = countdown_view s /\
    trace s1 = trace s ++ [DisconnectLogged (_expected_disconnect s)] /\
    _send_command link (S (S fuel)) command s1 = Some (Ok tt, s2) /\
    client_connected s2 = true /\
    _is_on s2 = _is_on s /\ countdown_view s2 = countdown_view s /\
    frames (trace s2) = frames (trace s) ++ [STATUS_QUERY_CMD; command].
Proof.
  intros Hw He Hn.
  assert (H1 : exists s1 : Coordinator,
             _disconnected s = Some (Ok tt, s1) /\
             _client s1 = None /\ _expected_disconnect s1 = false /\
             _is_on s1 = _is_on s /\ countdown_view s1 = countdown_view s /\
             trace s1 = trace s ++ [DisconnectLogged (_expected_disconnect s)]).
  { unfold _disconnected. unfold_monad.
    destruct (_expected_disconnect s) eqn:Hex; cbn; eexists;
      (split; [reflexivity |]); cbn; rewrite ?Hex; repeat split. }
  destruct H1 as (s1 & E1 & Hcl & Hex & Hon & Hcv & Htr).
  assert (Hnc : client_connected s1 = false)
    by (unfold client_connected; now rewrite Hcl).
  exists s1, (sent command (reconnected s1)).
  repeat split; try assumption.
  - apply send_ok; auto.
  - rewrite client_connected_sent. apply client_connected_reconnected.
  - rewrite is_on_sent. unfold reconnected. rewrite Hnc, is_on_sent. exact Hon.
  - rewrite (f_equal snd (session_view_sent command (reconnected s1)) :
               countdown_view (sent command (reconnected s1)) =
               countdown_view (reconnected s1)).
    unfold reconnected. rewrite Hnc.
    rewrite (f_equal snd (session_view_sent STATUS_QUERY_CMD (opened s1)) :
               countdown_view (sent STATUS_QUERY_CMD (opened s1)) =
               countdown_view (opened s1)).
    exact Hcv.
  - rewrite trace_sent, trace_reconnected, Hnc, Htr, !frames_app. cbn.
    rewrite <- !app_assoc. reflexivity.
Qed.

Lemma send_after_link_loss_reconnects_witness :
  exists s1 s2 : Coordinator,
    _disconnected (set_client (Some (mkClient true)) init) = Some (Ok tt, s1) /\
    _client s1 = None /\ _expected_disconnect s1 = false /\
    _is_on s1 = _is_on init /\ countdown_view s1 = countdown_view init /\
    trace s1 = [] ++ [DisconnectLogged false] /\
    _send_command (mkLink true true (fun _ => true) true 0) 2 TURN_OFF_CMD s1
    = Some (Ok tt, s2) /\
    client_connected s2 = true /\
    _is_on s2 = _is_on init /\ countdown_view s2 = countdown_view init /\
    frames (trace s2) = [] ++ [STATUS_QUERY_CMD; TURN_OFF_CMD].
Proof.
  apply (send_after_link_loss_reconnects
           (mkLink true true (fun _ => true) true 0) 0 TURN_OFF_CMD
           (set_client (Some (mkClient true)) init));
    reflexivity.
Defined.

(** ** The timer sensor *)

Module SensorFacts.

Import Ascii String Sensor.

Lemma str_inj (a b : Z) : str a = str b -> a = b.
Proof.
  unfold str. intros H.
  assert (Hn : forall z : Z,
             Z.to_int z <> Decimal.Pos Decimal.Nil /\
             Z.to_int z <> Decimal.Neg Decimal.Nil).
  { intros [| p | p]; cbn; split; try discriminate; intros E; injection E as E;
      now apply DecimalPos.Unsigned.to_uint_nonnil in E. }
  pose proof (DecimalString.NilZero.isi _ (proj1 (Hn a)) (proj2 (Hn a))) as Ha.
  pose proof (DecimalString.NilZero.isi _ (proj1 (Hn b)) (proj2 (Hn b))) as Hb.
  rewrite H in Ha. rewrite Ha in Hb. injection Hb as Hb.
  rewrite <- (DecimalZ.of_to a), <- (DecimalZ.of_to b). now rewrite Hb.
Qed.

Lemma two_digits (r : Z) :
  0 <= r < 60 ->
  format_02d r =
  String (decimal_digit (r / 10)) (String (decimal_digit (r mod 10)) EmptyString).
Proof.
  intros Hr. rewrite <- (Z2Nat.id r) by lia.
  assert (Hn : (Z.to_nat r < 60)%nat) by lia.
  generalize dependent (Z.to_nat r). intros n Hn.
  do 60 (destruct n as [| n]; [reflexivity |]). lia.
Qed.

Lemma chars_append (s1 s2 : string) :
  list_ascii_of_string (s1 ++ s2) =
  (list_ascii_of_string s1 ++ list_ascii_of_string s2)%list.
Proof. induction s1 as [| c s1 IH]; cbn; [| rewrite IH]; reflexivity. Qed.

Lemma decimal_digit_inj (a b : Z) :
  0 <= a < 10 -> 0 <= b < 10 -> decimal_digit a = decimal_digit b -> a = b.
Proof.
  unfold decimal_digit. intros Ha Hb H.
  apply (f_equal nat_of_ascii) in H.
  rewrite !nat_ascii_embedding in H by lia. lia.
Qed.

Lemma native_value_general (coordinator : Coordinator) :
  native_value coordinator =
  (str (_timer_remaining coordinator / 60) ++ ":" ++
   String (decimal_digit ((_timer_remaining coordinator mod 60) / 10))
     (String (decimal_digit ((_timer_remaining coordinator mod 60) mod 10))
        EmptyString))%string.
Proof.
  unfold native_value, timer_remaining.
  destruct (Z.eqb_spec (_timer_remaining coordinator) 0) as [-> | Hnz].
  - reflexivity.
  - cbv zeta. rewrite two_digits by (apply Z.mod_pos_bound; lia). reflexivity.
Qed.

(** X15: the sensor always shows the remaining time as [M:SS]: the
    decimal number of whole minutes (floor of seconds / 60), a colon, and
    exactly two digits for the seconds left over; the special case for 0
    agrees with the general rule. *)
Theorem native_value_is_minutes_colon_two_digits (coordinator : Coordinator) :
  exists tens units : Z,
    0 <= tens < 6 /\ 0 <= units < 10 /\
    _timer_remaining coordinator =
    60 * (_timer_remaining coordinator / 60) + 10 * tens + units /\
    native_value coordinator =
    (str (_timer_remaining coordinator / 60) ++ ":" ++
     String (decimal_digit tens) (String (decimal_digit units) EmptyString))%string.
Proof.
  set (seconds := _timer_remaining coordinator).
  exists ((seconds mod 60) / 10), ((seconds mod 60) mod 10).
  pose proof (Z.mod_pos_bound seconds 60 ltac:(lia)) as Hr.
  pose proof (Z.div_mod seconds 60 ltac:(lia)) as Hq.
  pose proof (Z.div_mod (seconds mod 60) 10 ltac:(lia)) as Hd.
  pose proof (Z.mod_pos_bound (seconds mod 60) 10 ltac:(lia)) as Hu.
  assert (Ht : 0 <= (seconds mod 60) / 10 < 6)
    by (split; [apply Z.div_pos; lia | apply Z.div_lt_upper_bound; lia]).
  repeat split; try lia.
  apply native_value_general.
Qed.

(** X16: the text shown by the sensor determines the remaining time: two
    coordinators with the same sensor value have the same remaining
    seconds. *)
Theorem native_value_injective (c1 c2 : Coordinator) :
  native_value c1 = native_value c2 ->
  _timer_remaining c1 = _timer_remaining c2.
Proof.
  rewrite !native_value_general.
  set (s1 := _timer_remaining c1). set (s2 := _timer_remaining c2).
  intros H. apply (f_equal list_ascii_of_string) in H.
  rewrite !chars_append in H. cbn [list_ascii_of_string app] in H.
  change (?l ++ ?c :: ?a :: [?b])%list with (l ++ [c; a; b])%list in H.
  assert (Hsplit : forall (l l' : list ascii) (c a b c' a' b' : ascii),
             (l ++ [c; a; b] = l' ++ [c'; a'; b'])%list ->
             l = l' /\ a = a' /\ b = b').
  { intros l l' c a b c' a' b' E.
    change (l ++ [c; a; b])%list with (l ++ [c] ++ [a] ++ [b])%list in E.
    change (l' ++ [c'; a'; b'])%list with (l' ++ [c'] ++ [a'] ++ [b'])%list in E.
    rewrite !app_assoc in E.
    apply app_inj_tail in E as [E Eb]. apply app_inj_tail in E as [E Ea].
    apply app_inj_tail in E as [E _]. auto. }
  apply Hsplit in H as (Hq & Ha & Hb).
  apply (f_equal string_of_list_ascii) in Hq.
  rewrite !string_of_list_ascii_of_string in Hq. apply str_inj in Hq.
  pose proof (Z.mod_pos_bound s1 60 ltac:(lia)) as Hr1.
  pose proof (Z.mod_pos_bound s2 60 ltac:(lia)) as Hr2.
  apply decimal_digit_inj in Ha;
    [| split; [apply Z.div_pos; lia | apply Z.div_lt_upper_bound; lia] ..].
  apply decimal_digit_inj in Hb; [| apply Z.mod_pos_bound; lia ..].
  pose proof (Z.div_mod s1 60 ltac:(lia)).
  pose proof (Z.div_mod s2 60 ltac:(lia)).
  pose proof (Z.div_mod (s1 mod 60) 10 ltac:(lia)).
  pose proof (Z.div_mod (s2 mod 60) 10 ltac:(lia)).
  lia.
Qed.

Lemma native_value_injective_witness :
  _timer_remaining (set_is_on true (set_timer_remaining 125 init)) =
  _timer_remaining (set_timer_remaining 125 init).
Proof.
  apply (native_value_injective
           (set_is_on true (set_timer_remaining 125 init))
           (set_timer_remaining 125 init)).
  reflexivity.
Defined.

End SensorFacts.

(** ** The auto-off handle *)

Lemma preserves_keeps {A B : Type} (f : Coordinator -> B) (v : B) (m : M A) :
  keeps f m -> preserves (fun s => f s = v) m.
Proof. intros Hk s s' r Hs E. rewrite (Hk _ _ _ E). exact Hs. Qed.

Lemma preserves_ret {A : Type} (P : Coordinator -> Prop) (a : A) :
  preserves P (ret a).
Proof. intros s s' r Hs E. injection E as _ <-. exact Hs. Qed.

Lemma preserves_modify (P : Coordinator -> Prop) (g : Coordinator -> Coordinator) :
  (forall s, P s -> P (g s)) -> preserves P (modify g).
Proof. intros Hg s s' r Hs E. injection E as _ <-. auto. Qed.

Lemma preserves_bind {A B : Type} (P : Coordinator -> Prop) (m : M A)
  (k : A -> M B) :
  preserves P m -> (forall a, preserves P (k a)) -> preserves P (bind m k).
Proof.
  intros Hm Hk s s' r Hs E. unfold bind in E.
  destruct (m s) as [[[a | e] s1] |] eqn:Em; try discriminate.
  - exact (Hk a _ _ _ (Hm _ _ _ Hs Em) E).
  - injection E as _ <-. exact (Hm _ _ _ Hs Em).
Qed.

Lemma preserves_get_bind {B : Type} (P : Coordinator -> Prop)
  (k : Coordinator -> M B) :
  (forall s0, P s0 -> preserves P (k s0)) -> preserves P (bind get k).
Proof. intros Hk s s' r Hs E. exact (Hk s Hs _ _ _ Hs E). Qed.

Lemma preserves_try {A : Type} (P : Coordinator -> Prop) (m : M A)
  (h : exn -> M A) :
  preserves P m -> (forall e, preserves P (h e)) -> preserves P (try_except m h).
Proof.
  intros Hm Hh s s' r Hs E. unfold try_except in E.
  destruct (m s) as [[[a | e] s1] |] eqn:Em; try discriminate.
  - injection E as _ <-. exact (Hm _ _ _ Hs Em).
  - exact (Hh e _ _ _ (Hm _ _ _ Hs Em) E).
Qed.

Lemma preserves_when (P : Coordinator -> Prop) (b : bool) (m : M unit) :
  preserves P m -> preserves P (when b m).
Proof. intros Hm. destruct b; [exact Hm | apply preserves_ret]. Qed.

Lemma send_preserves_unarmed (link : Link) (fuel : nat) (command : list Z) :
  preserves auto_off_unarmed (_send_command link fuel command).
Proof.
  apply (preserves_keeps _auto_off_timer None).
  exact (keeps_weaken session_view (fun v => snd (fst v)) _
           (send_keeps_session link fuel command)).
Qed.

Lemma disconnect_preserves_unarmed (link : Link) :
  preserves auto_off_unarmed (async_disconnect link).
Proof.
  unfold async_disconnect. apply preserves_get_bind. intros s0 Hs0.
  unfold auto_off_unarmed in Hs0. rewrite Hs0. cbn [truthy when].
  apply (preserves_keeps _auto_off_timer None).
  unfold client_disconnect, _disconnected. keeps_auto.
Qed.

Lemma handler_keeps_auto_off (link : Link) (data : list Z) :
  keeps _auto_off_timer (_notification_handler link data).
Proof.
  intros s s' r E. revert E.
  split_data data; unfold_handler; cbn;
    repeat (break_if; cbn); intros E; injection E as _ <-; reflexivity.
Qed.

Ltac preserves_step :=
  match goal with
  | |- preserves _ (bind _ _) => apply preserves_bind; [| intros ?]
  | |- preserves _ (ret _) => apply preserves_ret
  | |- preserves _ get => apply (preserves_keeps _auto_off_timer None), keeps_get
  | |- preserves _ (lift _) =>
      apply (preserves_keeps _auto_off_timer None), keeps_lift
  | |- preserves _ (when _ _) => apply preserves_when
  | |- preserves _ (try_except _ _) => apply preserves_try; [| intros ?]
  | |- preserves _ (_send_command _ _ _) => apply send_preserves_unarmed
  | |- preserves _ (async_disconnect _) => apply disconnect_preserves_unarmed
  | |- preserves _ (if ?c then _ else _) => destruct c
  | |- preserves _ _ =>
      unfold sleep, async_set_updated_data, emit;
      apply preserves_modify; intros ? ?; unfold auto_off_unarmed in *;
      first [assumption | reflexivity]
  end.

Lemma perform_preserves_unarmed (link : Link) (fuel : nat) (op : operation) :
  preserves auto_off_unarmed (perform link fuel op).
Proof.
  destruct op as [| | | data | | [] | | | | | minutes]; cbn [perform].
  - apply (preserves_keeps _auto_off_timer None). unfold async_connect.
    exact (keeps_weaken session_view (fun v => snd (fst v)) _
             (connect_with_keeps_session link _
                (fun c => send_keeps_session link fuel c))).
  - apply disconnect_preserves_unarmed.
  - apply (preserves_keeps _auto_off_timer None). unfold _disconnected. keeps_auto.
  - apply (preserves_keeps _auto_off_timer None), handler_keeps_auto_off.
  - apply (preserves_keeps _auto_off_timer None). unfold _update_countdown.
    keeps_auto.
  - unfold query_and_disconnect, _query_status, sleep.
    repeat preserves_step.
  - unfold async_turn_on, _query_status, sleep, async_set_updated_data, emit.
    repeat preserves_step.
  - unfold async_turn_off, async_set_updated_data, emit.
    repeat preserves_step.
  - unfold _auto_turn_off, async_turn_off, async_set_updated_data, emit.
    repeat preserves_step.
  - apply send_preserves_unarmed.
  - apply (preserves_keeps _auto_off_timer None). unfold set_timer_duration.
    keeps_auto.
Qed.

(** X17: nothing ever arms the auto-off handle.  From the initial state,
    any sequence of operations runs to its end (with two units of fuel for
    the lazy reconnect), whatever the transport does and whether or not the
    operations raise, and leaves [_auto_off_timer] at [None]: the cancel
    branches of [async_disconnect], [async_turn_on] and [async_turn_off]
    never fire, and the coordinator never schedules [_auto_turn_off]. *)
Theorem auto_off_timer_never_armed
  (link : Link) (fuel : nat) (ops : list operation) :
  exists s : Coordinator,
    perform_all link (S (S fuel)) ops init = Some s /\
    _auto_off_timer s = None.
Proof.
  assert (H : forall s0 : Coordinator,
             auto_off_unarmed s0 ->
             exists s : Coordinator,
               perform_all link (S (S fuel)) ops s0 = Some s /\
               auto_off_unarmed s).
  { induction ops as [| op rest IH]; intros s0 Hs0; cbn [perform_all].
    - exists s0. split; [reflexivity | exact Hs0].
    - destruct (perform_runs link fuel op s0 I) as (r & s1 & E & _).
      rewrite E. apply IH.
      exact (perform_preserves_unarmed link _ op _ _ _ Hs0 E). }
  apply H. reflexivity.
Qed.

(** ** Turning off on a failing link *)

(** X18: when the write of [async_turn_off] fails on an open connection,
    the call raises [UpdateFailed]; [is_on] keeps its value and no update is
    published (the trace is unchanged), while the auto-off handle has
    already been dropped and the pending idle-disconnect handle is left
    cancelled. *)
Theorem turn_off_failure_keeps_is_on
  (link : Link) (fuel : nat) (s : Coordinator) :
  client_connected s = true ->
  write_ok link (write_calls s) = false ->
  exists s' : Coordinator,
    async_turn_off link (S fuel) s = Some (Raise UpdateFailed, s') /\
    _is_on s' = _is_on s /\
    trace s' = trace s /\
    countdown_view s' = countdown_view s /\
    client_connected s' = true /\
    _auto_off_timer s' = None /\
    _disconnect_timer s' = option_map cancel (_disconnect_timer s).
Proof.
  intros Hc Hw.
  unfold async_turn_off. rewrite bind_get.
  destruct (when_auto_off s) as (s1 & E1 & Htr & Hon & Hcv & Hc1 & Hao).
  rewrite (bind_ok _ _ _ _ _ E1).
  assert (Hwc : write_calls s1 = write_calls s /\
                _disconnect_timer s1 = _disconnect_timer s).
  { revert E1. destruct (_auto_off_timer s); cbn; intros E;
      injection E as <-; split; reflexivity. }
  destruct Hwc as [Hwc Hdt].
  exists (unsent s1). split.
  - apply bind_raise. rewrite send_connected by (rewrite Hc1; exact Hc).
    apply send_tail_fail; [rewrite Hc1; exact Hc | rewrite Hwc; exact Hw].
  - rewrite client_connected_unsent, Hc1.
    cbn [unsent _is_on trace countdown_view _auto_off_timer _disconnect_timer
         set_write_calls set_disconnect_timer _timer_remaining
         _countdown_timer _countdown_start_time _timer_duration].
    rewrite Hdt. repeat split; assumption.
Qed.

Lemma turn_off_failure_keeps_is_on_witness :
  exists s' : Coordinator,
    async_turn_off (mkLink true true (fun _ => false) true 0) 1
      (set_is_on true (set_client (Some (mkClient true)) init))
    = Some (Raise UpdateFailed, s') /\
    _is_on s' = true /\
    trace s' = [] /\
    countdown_view s' = (0, None, None, 15) /\
    client_connected s' = true /\
    _auto_off_timer s' = None /\
    _disconnect_timer s' = None.
Proof.
  exact (turn_off_failure_keeps_is_on
           (mkLink true true (fun _ => false) true 0) 0
           (set_is_on true (set_client (Some (mkClient true)) init))
           eq_refl eq_refl).
Defined.

(** ** The configured duration *)

(** X19: [set_timer_duration] stores any integer, and the next
    [async_turn_on] on an open connection goes by it: a positive duration
    gives the set-timer frame for that duration, power-on and a status
    query; zero or a negative one gives power-on alone, with no timer frame
    and no status query. *)
Theorem set_duration_then_turn_on
  (link : Link) (fuel : nat) (duration : Z) (s : Coordinator) :
  (forall n : nat, write_ok link n = true) ->
  client_connected s = true ->
  exists s' : Coordinator,
    (set_timer_duration duration ;; async_turn_on link (S (S fuel))) s
    = Some (Ok tt, s') /\
    _timer_duration s' = duration /\
    _is_on s' = true /\
    ((0 < duration /\
      exists timer_cmd : list Z,
        create_timer_command duration = Ok timer_cmd /\
        frames (trace s') =
        frames (trace s) ++ [timer_cmd; TURN_ON_CMD; STATUS_QUERY_CMD]) \/
     (duration <= 0 /\
      frames (trace s') = frames (trace s) ++ [TURN_ON_CMD])).
Proof.
  intros Hw Hc.
  unfold set_timer_duration. rewrite bind_modify.
  set (s1 := set_timer_duration_field duration s).
  assert (Hc1 : client_connected s1 = true) by exact Hc.
  assert (Hd1 : _timer_duration s1 = duration) by reflexivity.
  assert (Hrec : reconnected s1 = s1) by (unfold reconnected; now rewrite Hc1).
  assert (Hkeep : forall s' : Coordinator,
             async_turn_on link (S (S fuel)) s1 = Some (Ok tt, s') ->
             _timer_duration s' = duration).
  { intros s' E.
    pose proof (turn_on_keeps_countdown link _ _ _ _ E) as Hv.
    unfold countdown_view in Hv. injection Hv as _ _ _ Hv. now rewrite Hv. }
  destruct (Z.ltb_spec 0 duration) as [Hpos | Hnpos].
  - pose proof (create_timer_command_eq duration) as Hcmd. cbv zeta in Hcmd.
    match type of Hcmd with _ = Ok ?c => set (cmd := c) in * end.
    destruct (turn_on_with_timer link fuel s1 cmd Hw (or_introl Hc1))
      as (s' & E & Htr & Hon); [rewrite Hd1; exact Hpos | rewrite Hd1; exact Hcmd |].
    exists s'. split; [exact E |]. split; [exact (Hkeep _ E) |].
    split; [exact Hon |]. left. split; [exact Hpos |].
    exists cmd. split; [exact Hcmd |].
    rewrite Htr, Hrec, frames_app. reflexivity.
  - destruct (turn_on_without_timer link fuel s1 Hw (or_introl Hc1))
      as (s' & E & Htr & Hon); [rewrite Hd1; exact Hnpos |].
    exists s'. split; [exact E |]. split; [exact (Hkeep _ E) |].
    split; [exact Hon |]. right. split; [exact Hnpos |].
    rewrite Htr, Hrec, frames_app. reflexivity.
Qed.

Lemma set_duration_then_turn_on_witness :
  exists s' : Coordinator,
    (set_timer_duration (-5) ;;
     async_turn_on (mkLink true true (fun _ => true) true 0) 2)
      (set_client (Some (mkClient true)) init)
    = Some (Ok tt, s') /\
    _timer_duration s' = -5 /\
    _is_on s' = true /\
    ((0 < -5 /\
      exists timer_cmd : list Z,
        create_timer_command (-5) = Ok timer_cmd /\
        frames (trace s') =
        frames (trace (set_client (Some (mkClient true)) init)) ++
        [timer_cmd; TURN_ON_CMD; STATUS_QUERY_CMD]) \/
     (-5 <= 0 /\
      frames (trace s') =
      frames (trace (set_client (Some (mkClient true)) init)) ++ [TURN_ON_CMD])).
Proof.
  exact (set_duration_then_turn_on
           (mkLink true true (fun _ => true) true 0) 0 (-5)
           (set_client (Some (mkClient true)) init)
           (fun _ => eq_refl) eq_refl).
Defined.
